(** * Logs SSE Gateway: a shallow embedding of
      [logs-sse-gateway/server/logs-gateway.js] and its properties.

    The gateway object of class [LogsSSEGateway] holds two maps,
    [connections] (connection id -> connection data) and [logChannels]
    (channel name -> set of connection ids).  Handlers are modelled as
    functions threading that state explicitly; a handler that can throw
    returns an [outcome].

    What the environment decides is an input of the handlers: the readings
    of [Date.now()] and [Math.random()] (one record of readings per call
    site), and whether a [res.write] throws.  A response stream is the list
    of chunks written to it; nothing in the gateway reads a stream back, so
    the list only grows.  A number is given by its sign, shortest decimal
    digits and exponent, and printed as [Number::toString] prints it.
    Strings are sequences of bytes (well-formed UTF-8).  A stream request
    may be registered under an id already in use ([connections.set]
    overwrites); [reachable_fresh] singles out the runs where none is. *)

From Stdlib Require Import Ascii String ZArith.
From stdpp Require Import base strings list gmap pretty.

#[local] Set Warnings "-clear-no-such-hyp".
Open Scope string_scope.

(** ** JavaScript values *)

Module JS.

(** What a call may end with: a return, or a thrown exception. *)
Inductive outcome (A : Type) : Type :=
  | Returned (a : A)
  | Threw (error : string).
Arguments Returned {A} a.
Arguments Threw {A} error.

(** [bind r k]: go on with [k] when [r] returned, else pass the exception
    on. *)
Definition bind {A B : Type} (r : outcome A) (k : A -> outcome B)
  : outcome B :=
  match r with
  | Returned a => k a
  | Threw e => Threw e
  end.

(** *** Numbers *)

Inductive digit : Type :=
  | D0 | D1 | D2 | D3 | D4 | D5 | D6 | D7 | D8 | D9.

(** A number as [Number::toString] takes it: zero (of either sign), an
    infinity, or a finite number, the latter given by its sign, the digits
    [d1 ... dk] of its shortest decimal representation and the exponent [n],
    standing for [0.d1...dk * 10^n].  [NaN] is left out: no JSON text
    parses to it and the gateway computes none. *)
Inductive number : Type :=
  | NZero
  | NInfinity (negative : bool)
  | NFinite (negative : bool) (digits : list digit) (n : Z).

#[global] Instance digit_eq_dec : EqDecision digit.
Proof. solve_decision. Defined.

#[global] Instance number_eq_dec : EqDecision number.
Proof. solve_decision. Defined.

Definition digit_char (d : digit) : ascii :=
  match d with
  | D0 => "0" | D1 => "1" | D2 => "2" | D3 => "3" | D4 => "4"
  | D5 => "5" | D6 => "6" | D7 => "7" | D8 => "8" | D9 => "9"
  end%char.

Fixpoint digits_text (ds : list digit) : string :=
  match ds with
  | [] => ""
  | d :: rest => String (digit_char d) (digits_text rest)
  end.

Fixpoint zeros (n : nat) : string :=
  match n with
  | O => ""
  | S n' => String "0" (zeros n')
  end.

(** [Number::toString] in radix 10, for a finite number with [k] digits
    and exponent [n]: an integer up to 21 digits is written out, with
    [n - k] zeros after the digits; a number with [0 < n <= 21] has the
    decimal point after [n] digits; one with [-6 < n <= 0] is [0.], [-n]
    zeros and the digits; any other uses the exponent notation. *)
Definition number_to_string (x : number) : string :=
  match x with
  | NZero => "0"
  | NInfinity negative => (if negative then "-" else "") ++ "Infinity"
  | NFinite negative ds n =>
      let k := Z.of_nat (length ds) in
      (if negative then "-" else "")
      ++ (if (k <=? n)%Z && (n <=? 21)%Z then
            digits_text ds ++ zeros (Z.to_nat (n - k))
          else if (0 <? n)%Z && (n <=? 21)%Z then
            digits_text (take (Z.to_nat n) ds) ++ "."
            ++ digits_text (drop (Z.to_nat n) ds)
          else if (-6 <? n)%Z && (n <=? 0)%Z then
            "0." ++ zeros (Z.to_nat (- n)) ++ digits_text ds
          else
            let exponent :=
              (if (0 <=? n - 1)%Z then "+" else "-")
              ++ pretty (Z.abs (n - 1)) in
            match ds with
            | [] => "e" ++ exponent
            | [d] => digits_text [d] ++ "e" ++ exponent
            | d :: rest =>
                digits_text [d] ++ "." ++ digits_text rest ++ "e" ++ exponent
            end)
  end.

Definition digit_of_char (c : ascii) : digit :=
  match (N_of_ascii c - 48)%N with
  | 0 => D0 | 1 => D1 | 2 => D2 | 3 => D3 | 4 => D4
  | 5 => D5 | 6 => D6 | 7 => D7 | 8 => D8 | _ => D9
  end%N.

Fixpoint digits_of_text (s : string) : list digit :=
  match s with
  | EmptyString => []
  | String c r => digit_of_char c :: digits_of_text r
  end.

(** The digits without their trailing zeros. *)
Fixpoint strip_zeros (ds : list digit) : list digit :=
  match ds with
  | [] => []
  | d :: rest =>
      match strip_zeros rest with
      | [] => match d with D0 => [] | _ => [d] end
      | rest' => d :: rest'
      end
  end.

(** The number an integer is: the gateway's own numbers (readings of
    [Date.now()], counters, sizes) are integers, all below 2^53 in
    magnitude. *)
Definition of_Z (z : Z) : number :=
  match z with
  | Z0 => NZero
  | Zpos p =>
      let ds := digits_of_text (pretty (Npos p)) in
      NFinite false (strip_zeros ds) (Z.of_nat (length ds))
  | Zneg p =>
      let ds := digits_of_text (pretty (Npos p)) in
      NFinite true (strip_zeros ds) (Z.of_nat (length ds))
  end.

(** *** Values *)

(** The values the handlers see: what [express.json()] can put into
    [req.body] (any JSON value), plus [undefined] for a missing property
    and [VNative] for the members a plain object literal inherits from
    [Object.prototype] ([VNative "toString"] is the function
    [Object.prototype.toString], and so on).  The fields of a [VObj] are
    its own properties, listed in property enumeration order. *)
#[warnings="-register-all"]
Inductive val : Type :=
  | VUndef
  | VNull
  | VBool (b : bool)
  | VNum (x : number)
  | VStr (s : string)
  | VArr (l : list val)
  | VObj (fs : list (string * val))
  | VNative (name : string).

(** The value of an integer the gateway computed. *)
Definition num (z : Z) : val := VNum (of_Z z).

(** Decidable equality, by mutual recursion with lists of values and of
    fields. *)
Fixpoint val_eqb (a b : val) : bool :=
  let fix list_eqb (l1 l2 : list val) : bool :=
    match l1, l2 with
    | [], [] => true
    | x :: l1', y :: l2' => val_eqb x y && list_eqb l1' l2'
    | _, _ => false
    end in
  let fix fields_eqb (l1 l2 : list (string * val)) : bool :=
    match l1, l2 with
    | [], [] => true
    | (k1, x) :: l1', (k2, y) :: l2' =>
        bool_decide (k1 = k2) && val_eqb x y && fields_eqb l1' l2'
    | _, _ => false
    end in
  match a, b with
  | VUndef, VUndef => true
  | VNull, VNull => true
  | VBool x, VBool y => bool_decide (x = y)
  | VNum x, VNum y => bool_decide (x = y)
  | VStr x, VStr y => bool_decide (x = y)
  | VArr x, VArr y => list_eqb x y
  | VObj x, VObj y => fields_eqb x y
  | VNative x, VNative y => bool_decide (x = y)
  | _, _ => false
  end.

(** [a === b].  Primitives compare by value.  Objects and arrays compare by
    reference in JavaScript; the model has no references, and the only
    comparison of two objects the gateway ever makes is of the [service]
    argument with itself (through the ['service-token'] entry), where
    structural and reference equality agree.  A number, too, is compared
    with itself only, and equals itself: [NaN] is no JSON value. *)
Definition strict_eq (a b : val) : bool := val_eqb a b.

(** Truthiness, as tested by [if (x)] and [x || y]. *)
Definition truthy (v : val) : bool :=
  match v with
  | VUndef | VNull => false
  | VBool b => b
  | VNum x => match x with NZero => false | _ => true end
  | VStr s => negb (bool_decide (s = ""))
  | VArr _ | VObj _ | VNative _ => true
  end.

(** [Array.prototype.join] with separator [sep] on strings. *)
Fixpoint join (sep : string) (l : list string) : string :=
  match l with
  | [] => ""
  | [x] => x
  | x :: rest => x ++ sep ++ join sep rest
  end.

(** The keys of a field list. *)
Definition has_key (k : string) (fs : list (string * val)) : bool :=
  bool_decide (k ∈ map fst fs).

Definition not_primitive : string :=
  "TypeError: Cannot convert object to primitive value".

(** [String(v)], the conversion a template literal [`${v}`] applies.  An
    array joins the conversions of its elements with a comma, [null] and
    [undefined] elements giving the empty string.  An object parsed from
    JSON has no callable property of its own: with an own [toString] key,
    [Object.prototype.toString] is shadowed by a value that cannot be
    called, [valueOf] gives no primitive either, and the conversion throws;
    without it the inherited method gives [[object Object]]. *)
Fixpoint to_string (v : val) : outcome string :=
  match v with
  | VUndef => Returned "undefined"
  | VNull => Returned "null"
  | VBool b => Returned (if b then "true" else "false")
  | VNum x => Returned (number_to_string x)
  | VStr s => Returned s
  | VArr l =>
      let fix elements (l : list val) : outcome (list string) :=
        match l with
        | [] => Returned []
        | x :: rest =>
            bind (match x with
                  | VUndef | VNull => Returned ""
                  | _ => to_string x
                  end)
                 (fun t => bind (elements rest)
                             (fun ts => Returned (t :: ts)))
        end in
      bind (elements l) (fun ts => Returned (join "," ts))
  | VObj fs =>
      if has_key "toString" fs then Threw not_primitive
      else Returned "[object Object]"
  | VNative name =>
      Returned ("function " ++ name ++ "() { [native code] }")
  end.

(** [s.split(sep)] for a one-character separator: the pieces between the
    occurrences of [sep]; never the empty array. *)
Fixpoint split (sep : ascii) (s : string) : list string :=
  match s with
  | EmptyString => [EmptyString]
  | String c r =>
      if Ascii.eqb c sep then EmptyString :: split sep r
      else match split sep r with
           | h :: t => String c h :: t
           | [] => [String c EmptyString]
           end
  end.

(** *** [JSON.stringify] *)

(** The double quote and the line feed, by character code. *)
Definition dquote : ascii := "034"%char.
Definition nl : string := String "010"%char "".

Definition hex_digit (n : N) : ascii :=
  match n with
  | 0 => "0" | 1 => "1" | 2 => "2" | 3 => "3" | 4 => "4" | 5 => "5"
  | 6 => "6" | 7 => "7" | 8 => "8" | 9 => "9" | 10 => "a" | 11 => "b"
  | 12 => "c" | 13 => "d" | 14 => "e" | _ => "f"
  end%N%char.

(** One character of a quoted JSON string: the quote and the backslash are
    escaped, control characters use the short escapes or [\u00XX]; every
    other byte (UTF-8 included) is copied. *)
Definition escape_char (c : ascii) : string :=
  let n := N_of_ascii c in
  if bool_decide (n = 34)%N then String "\" (String dquote "")
  else if bool_decide (n = 92)%N then String "\" (String "\" "")
  else if bool_decide (n = 8)%N then "\b"
  else if bool_decide (n = 9)%N then "\t"
  else if bool_decide (n = 10)%N then "\n"
  else if bool_decide (n = 12)%N then "\f"
  else if bool_decide (n = 13)%N then "\r"
  else if bool_decide (n < 32)%N then
    "\u00" ++ String (hex_digit (n / 16)) (String (hex_digit (n mod 16)) "")
  else String c "".

Fixpoint escape (s : string) : string :=
  match s with
  | EmptyString => ""
  | String c r => escape_char c ++ escape r
  end.

Definition quote (s : string) : string :=
  String dquote (escape s) ++ String dquote "".

(** [JSON.stringify(v)]; [None] is JavaScript's [undefined] result.  A
    property whose value does not serialize is left out of an object, and an
    array element that does not serialize is written [null]; so is a number
    that is not finite. *)
Fixpoint stringify (v : val) : option string :=
  match v with
  | VUndef => None
  | VNative _ => None
  | VNull => Some "null"
  | VBool b => Some (if b then "true" else "false")
  | VNum x =>
      Some (match x with
            | NInfinity _ => "null"
            | _ => number_to_string x
            end)
  | VStr s => Some (quote s)
  | VArr l =>
      Some ("[" ++ join "," (map (fun x => default "null" (stringify x)) l)
                ++ "]")
  | VObj fs =>
      Some ("{" ++ join ","
                   (omap (fun kx => match stringify (snd kx) with
                                    | Some t => Some (quote (fst kx) ++ ":" ++ t)
                                    | None => None
                                    end) fs)
                ++ "}")
  end.

(** The text a template literal [`data: ${JSON.stringify(v)}`] splices in. *)
Definition stringify_text (v : val) : string :=
  match stringify v with
  | Some t => t
  | None => "undefined"
  end.

(** The property names [JSON.stringify] writes for an object, in order. *)
Definition serialized_keys (v : val) : list string :=
  match v with
  | VObj fs => omap (fun kx => match stringify (snd kx) with
                               | Some _ => Some (fst kx)
                               | None => None
                               end) fs
  | _ => []
  end.

(** Own-property lookup in a field list; the last definition of a repeated
    key is the one an object literal keeps. *)
Fixpoint get_own (fs : list (string * val)) (k : string) : option val :=
  match fs with
  | [] => None
  | (k', v) :: rest =>
      match get_own rest k with
      | Some w => Some w
      | None => if bool_decide (k' = k) then Some v else None
      end
  end.

(** The properties every object literal inherits from [Object.prototype]. *)
Definition object_prototype_keys : list string :=
  [ "constructor"; "hasOwnProperty"; "isPrototypeOf";
    "propertyIsEnumerable"; "toLocaleString"; "toString"; "valueOf";
    "__proto__"; "__defineGetter__"; "__defineSetter__";
    "__lookupGetter__"; "__lookupSetter__" ].

(** [obj[k]] for an object literal [obj] with own fields [fs]: an own
    property, else an inherited one, else [undefined]. *)
Definition get (fs : list (string * val)) (k : string) : val :=
  match get_own fs k with
  | Some v => v
  | None =>
      if bool_decide (k ∈ object_prototype_keys) then VNative k else VUndef
  end.

End JS.

(** ** The gateway *)

Module Gateway.
Import JS.
Local Open Scope Z_scope.

(** *** Data *)

(** The response object [res] of a streaming request: the status and
    headers given to [writeHead], and the chunks passed to [write], oldest
    first. *)
Record stream := Stream {
  statusCode : Z;
  headers : list (string * string);
  written : list string
}.

(** The response of a request answered with [res.json]. *)
Record reply := Reply {
  reply_status : Z;
  reply_body : val
}.

(** [req.user], as the authentication middleware sets it. *)
Record user := User {
  id : string;
  workspace_ids : list string;
  permissions : list string
}.

(** [connectionData]. *)
Record connection := Connection {
  res : stream;
  userId : string;
  connectionId : string;
  channels : list string;
  connectedAt : Z;
  logsSent : Z
}.

Record statistics := Statistics {
  totalConnections : Z;
  logsPublished : Z;
  startTime : Z
}.

(** The mutable fields of a [LogsSSEGateway]. *)
Record gateway := GatewayState {
  connections : gmap string connection;
  logChannels : gmap string (gset string);
  stats : statistics
}.

(** [new LogsSSEGateway()] at time [now]. *)
Definition constructor (now : Z) : gateway :=
  {| connections := ∅; logChannels := ∅;
     stats := {| totalConnections := 0; logsPublished := 0;
                 startTime := now |} |}.

(** *** Requests *)

(** [req.query.channels] as Express parses it: missing, one string, or an
    array when the parameter is repeated. *)
Inductive query_value : Type :=
  | QAbsent
  | QString (s : string)
  | QArray (l : list string).

Record stream_request := StreamRequest {
  x_user_id : option string;
  query_channels : query_value
}.

(** The five properties [handleLogsPublish] reads off [req.body], the
    object [express.json()] parsed from the request; a property the body
    lacks is [VUndef]. *)
Record publish_body := PublishBody {
  service : val;
  workspace_id : val;
  workflow_id : val;
  function_id : val;
  logData : val
}.

Record publish_request := PublishRequest {
  x_service_token : option string;
  body : publish_body
}.

(** The readings of [Date.now()] and [Math.random()] in [handleLogsSSE], in
    call order; [sse_random] is [Math.random().toString(36).substr(2, 9)]. *)
Record sse_clock := SseClock {
  sse_now_id : Z;
  sse_random : string;
  sse_now_connected : Z;
  sse_now_hello : Z
}.

(** The same for one iteration of the loop of [broadcastLog], with
    [write_throws] telling whether [connection.res.write] throws there. *)
Record write_clock := WriteClock {
  write_now : Z;
  write_now_id : Z;
  write_random : string;
  write_throws : bool
}.

(** *** The authentication middleware *)

(** [req.headers['x-user-id'] || 'user123']: a missing or empty header gives
    the default. *)
Definition mock_user (req : stream_request) : user :=
  {| id := match x_user_id req with
           | Some s => if bool_decide (s = "") then "user123" else s
           | None => "user123"
           end;
     workspace_ids := ["workspace123"; "workspace456"];
     permissions := ["logs.read"] |}.

(** *** [getUserLogChannels] *)

(** The test of the loop body: [type === 'logs' &&
    user.workspace_ids.includes(workspaceId)], where [type] and
    [workspaceId] are elements 0 and 2 of [channel.split(':')]; an element
    the array lacks is [undefined], which no array of strings includes. *)
Definition channel_allowed (u : user) (channel : string) : bool :=
  let parts := split ":" channel in
  bool_decide (parts !! 0%nat = Some "logs")
  && match parts !! 2%nat with
     | Some workspaceId => bool_decide (workspaceId ∈ workspace_ids u)
     | None => false
     end.

(** [forEach] with [push]: the allowed channels in request order. *)
Fixpoint getUserLogChannels (u : user) (requestedChannels : list string)
  : list string :=
  match requestedChannels with
  | [] => []
  | channel :: rest =>
      if channel_allowed u channel
      then channel :: getUserLogChannels u rest
      else getUserLogChannels u rest
  end.

(** *** [validateLogPublisher] *)

Definition validTokens (service : val) : list (string * val) :=
  [ ("l5-etl-token", VStr "etl");
    ("faas-token", VStr "faas");
    ("function-token", VStr "function");
    ("service-token", service) ].

(** The property key a header value denotes: a missing header is
    [undefined], whose key is the string "undefined". *)
Definition property_key (token : option string) : string :=
  match token with
  | Some t => t
  | None => "undefined"
  end.

(** [validTokens[token] === service]. *)
Definition validateLogPublisher (token : option string) (service : val)
  : bool :=
  strict_eq (get (validTokens service) (property_key token)) service.

(** *** [removeConnection] *)

(** The body of [connection.channels.forEach] for one channel. *)
Definition unsubscribe (connectionId : string)
    (index : gmap string (gset string)) (channel : string)
  : gmap string (gset string) :=
  match index !! channel with
  | Some channelSubscribers =>
      let remaining := channelSubscribers ∖ {[connectionId]} in
      if bool_decide (size remaining = 0%nat)
      then delete channel index
      else <[channel := remaining]> index
  | None => index
  end.

Definition removeConnection (connectionId : string) (g : gateway) : gateway :=
  match connections g !! connectionId with
  | Some connection =>
      {| connections := delete connectionId (connections g);
         logChannels :=
           foldl (unsubscribe connectionId) (logChannels g)
                 (channels connection);
         stats := stats g |}
  | None => g
  end.

(** *** [handleLogsSSE] *)

(** [req.query.channels ? req.query.channels.split(',') : []].  The empty
    string is falsy; an array is truthy and has no [split] method, so the
    call throws a [TypeError]. *)
Definition requestedChannels (q : query_value) : outcome (list string) :=
  match q with
  | QAbsent => Returned []
  | QString s => if bool_decide (s = "") then Returned [] else Returned (split "," s)
  | QArray _ => Threw "TypeError: req.query.channels.split is not a function"
  end.

Definition sse_headers : list (string * string) :=
  [ ("Content-Type", "text/event-stream");
    ("Cache-Control", "no-cache, no-transform");
    ("Connection", "keep-alive");
    ("X-Accel-Buffering", "no");
    ("Access-Control-Allow-Origin", "*");
    ("Access-Control-Allow-Headers",
     "Cache-Control, Authorization, X-User-Id, X-Workspace-Id") ].

(** [res.write(chunk)] on a stream. *)
Definition write (chunk : string) (r : stream) : stream :=
  {| statusCode := statusCode r; headers := headers r;
     written := written r ++ [chunk] |}.

(** The same on the [res] of a stored connection: the connection data holds
    the response object itself, so a write shows in the registry. *)
Definition write_to (chunk : string) (c : connection) : connection :=
  {| res := write chunk (res c); userId := userId c;
     connectionId := connectionId c; channels := channels c;
     connectedAt := connectedAt c; logsSent := logsSent c |}.

(** The body of [allowedChannels.forEach] for one channel. *)
Definition subscribe (connectionId : string)
    (index : gmap string (gset string)) (channel : string)
  : gmap string (gset string) :=
  let index1 := match index !! channel with
                | Some _ => index
                | None => <[channel := ∅]> index
                end in
  alter (fun subscribers => subscribers ∪ {[connectionId]}) channel index1.

Definition new_connection_id (userId : string) (clock : sse_clock) : string :=
  userId ++ "_" ++ number_to_string (of_Z (sse_now_id clock)) ++ "_"
         ++ sse_random clock.

(** The object of the connection confirmation. *)
Definition hello_fields (allowedChannels : list string)
    (userId connectionId : string) (now : Z) : list (string * val) :=
  [ ("type", VStr "connection");
    ("status", VStr "connected");
    ("channels", VArr (map VStr allowedChannels));
    ("userId", VStr userId);
    ("connectionId", VStr connectionId);
    ("timestamp", num now) ].

Definition hello_message (allowedChannels : list string)
    (userId connectionId : string) (now : Z) : val :=
  VObj (hello_fields allowedChannels userId connectionId now).

Definition hello_record (allowedChannels : list string)
    (userId connectionId : string) (now : Z) : string :=
  "data: "
  ++ stringify_text (hello_message allowedChannels userId connectionId now)
  ++ nl ++ nl.

(** The synchronous part of [handleLogsSSE]; the [close] listener and the
    heartbeat timer it installs are the transitions [removeConnection] and
    [heartbeat] below.  The result carries the new connection id. *)
Definition handleLogsSSE (clock : sse_clock) (req : stream_request)
    (g : gateway) : outcome (string * gateway) :=
  let u := mock_user req in
  let userId := id u in
  let connectionId := new_connection_id userId clock in
  match requestedChannels (query_channels req) with
  | Threw e => Threw e
  | Returned requested =>
      let allowedChannels := getUserLogChannels u requested in
      let res0 := {| statusCode := 200; headers := sse_headers;
                     written := [] |} in
      let connectionData :=
        {| res := res0; userId := userId; connectionId := connectionId;
           channels := allowedChannels;
           connectedAt := sse_now_connected clock; logsSent := 0 |} in
      let connections1 := <[connectionId := connectionData]> (connections g) in
      let stats1 :=
        {| totalConnections := totalConnections (stats g) + 1;
           logsPublished := logsPublished (stats g);
           startTime := startTime (stats g) |} in
      let logChannels1 :=
        foldl (subscribe connectionId) (logChannels g) allowedChannels in
      let connections2 :=
        alter (write_to (hello_record allowedChannels userId connectionId
                           (sse_now_hello clock)))
              connectionId connections1 in
      Returned (connectionId,
                {| connections := connections2; logChannels := logChannels1;
                   stats := stats1 |})
  end.

(** One tick of the heartbeat timer of connection [connectionId]. *)
Definition heartbeat (connectionId : string) (g : gateway) : gateway :=
  match connections g !! connectionId with
  | Some _ =>
      {| connections :=
           alter (write_to (":ping" ++ nl ++ nl)) connectionId (connections g);
         logChannels := logChannels g; stats := stats g |}
  | None => g
  end.

(** *** [broadcastLog] *)

(** [logMessage.id]. *)
Definition log_id (clock : write_clock) : string :=
  "log-" ++ number_to_string (of_Z (write_now_id clock)) ++ "-"
         ++ write_random clock.

Definition log_fields (channel : string) (logData : val)
    (clock : write_clock) : list (string * val) :=
  [ ("channel", VStr channel);
    ("data", logData);
    ("timestamp", num (write_now clock));
    ("id", VStr (log_id clock)) ].

Definition logMessage (channel : string) (logData : val)
    (clock : write_clock) : val :=
  VObj (log_fields channel logData clock).

Definition log_record (channel : string) (logData : val)
    (clock : write_clock) : string :=
  "id: " ++ log_id clock ++ nl
  ++ "data: " ++ stringify_text (logMessage channel logData clock)
  ++ nl ++ nl.

(** [connection.logsSent = (connection.logsSent || 0) + 1] after a write. *)
Definition sent_to (chunk : string) (c : connection) : connection :=
  {| res := write chunk (res c); userId := userId c;
     connectionId := connectionId c; channels := channels c;
     connectedAt := connectedAt c; logsSent := logsSent c + 1 |}.

(** The body of [subscribers.forEach] for one connection id, on the pair of
    the [delivered] counter and the gateway. *)
Definition deliver (clocks : string -> write_clock) (channel : string)
    (logData : val) (acc : Z * gateway) (connectionId : string)
  : Z * gateway :=
  let '(delivered, g) := acc in
  match connections g !! connectionId with
  | Some _ =>
      if write_throws (clocks connectionId)
      then (delivered, removeConnection connectionId g)
      else (delivered + 1,
            {| connections :=
                 alter (sent_to (log_record channel logData
                                   (clocks connectionId)))
                       connectionId (connections g);
               logChannels := logChannels g; stats := stats g |})
  | None => (delivered, g)
  end.

(** [broadcastLog(channel, logData)].  The loop runs over the members the
    set has when the loop starts: the only member the body can delete is the
    one being visited, and none is added.  The order of visits does not show
    in the result, each visit touching its own connection only. *)
Definition broadcastLog (clocks : string -> write_clock) (channel : string)
    (logData : val) (g : gateway) : Z * gateway :=
  let subscribers := default ∅ (logChannels g !! channel) in
  foldl (deliver clocks channel logData) (0, g) (elements subscribers).

(** *** [handleLogsPublish] *)

(** The channel built from the body.  A template literal converts its
    parts from left to right, and throws when a conversion does. *)
Definition publish_channel (b : publish_body) : outcome string :=
  if truthy (function_id b) then
    bind (to_string (workspace_id b)) (fun w =>
    bind (to_string (function_id b)) (fun f =>
    Returned ("logs:function:" ++ w ++ ":" ++ f)))
  else if truthy (workflow_id b) then
    bind (to_string (service b)) (fun s =>
    bind (to_string (workspace_id b)) (fun w =>
    bind (to_string (workflow_id b)) (fun r =>
    Returned ("logs:" ++ s ++ ":" ++ w ++ ":" ++ r))))
  else
    bind (to_string (service b)) (fun s =>
    bind (to_string (workspace_id b)) (fun w =>
    Returned ("logs:" ++ s ++ ":" ++ w))).

Definition count_publish (g : gateway) : gateway :=
  {| connections := connections g; logChannels := logChannels g;
     stats := {| totalConnections := totalConnections (stats g);
                 logsPublished := logsPublished (stats g) + 1;
                 startTime := startTime (stats g) |} |}.

Definition unauthorized : reply :=
  {| reply_status := 403;
     reply_body := VObj [("error", VStr "Unauthorized log publisher")] |}.

Definition publish_reply (channel : string) (delivered now : Z) : reply :=
  {| reply_status := 200;
     reply_body := VObj [ ("success", VBool true);
                          ("channel", VStr channel);
                          ("delivered", num delivered);
                          ("timestamp", num now) ] |}.

(** [handleLogsPublish]: the answer, or the exception the handler ends
    with (Express then answers 500), and the gateway afterwards.  The
    channel is built after the token check and before the fan-out, so an
    exception there leaves the gateway as it was. *)
Definition handleLogsPublish (clocks : string -> write_clock) (now : Z)
    (req : publish_request) (g : gateway) : outcome reply * gateway :=
  let b := body req in
  if negb (validateLogPublisher (x_service_token req) (service b)) then
    (Returned unauthorized, g)
  else
    match publish_channel b with
    | Threw e => (Threw e, g)
    | Returned channel =>
        let '(delivered, g1) := broadcastLog clocks channel (logData b) g in
        (Returned (publish_reply channel delivered now), count_publish g1)
    end.

(** *** The test endpoint [POST /test/logs] *)

(** A destructuring default applies to [undefined] only. *)
Definition or_default (v : val) (d : string) : val :=
  match v with
  | VUndef => VStr d
  | _ => v
  end.

(** The channel of the test endpoint, from the body. *)
Definition test_channel (b : publish_body) : outcome string :=
  bind (to_string (or_default (service b) "etl")) (fun s =>
  bind (to_string (or_default (workspace_id b) "workspace123")) (fun w =>
  bind (to_string (or_default (workflow_id b) "workflow456")) (fun r =>
  Returned ("logs:" ++ s ++ ":" ++ w ++ ":" ++ r)))).

Definition test_reply (channel : string) (delivered : Z)
    (testLogData : val) (now : Z) : reply :=
  {| reply_status := 200;
     reply_body := VObj [ ("success", VBool true);
                          ("channel", VStr channel);
                          ("delivered", num delivered);
                          ("logData", testLogData);
                          ("timestamp", num now) ] |}.

(** [sample] is the log object the handler builds from the clock when the
    body has no truthy [logData]. *)
Definition handleTestLogs (clocks : string -> write_clock) (now : Z)
    (sample : val) (b : publish_body) (g : gateway)
  : outcome reply * gateway :=
  let testLogData := if truthy (logData b) then logData b else sample in
  match test_channel b with
  | Threw e => (Threw e, g)
  | Returned channel =>
      let '(delivered, g1) := broadcastLog clocks channel testLogData g in
      (Returned (test_reply channel delivered testLogData now), g1)
  end.

(** What a served stream request leaves behind. *)
Definition accepted_connection (clock : sse_clock) (u : user)
    (allowed : list string) : connection :=
  let k := new_connection_id (id u) clock in
  {| res := {| statusCode := 200; headers := sse_headers;
               written := [hello_record allowed (id u) k
                             (sse_now_hello clock)] |};
     userId := id u; connectionId := k; channels := allowed;
     connectedAt := sse_now_connected clock; logsSent := 0 |}.

(** What one visit of [unsubscribe] leaves of a subscriber set: the set
    without [connectionId], or no entry when that is empty. *)
Definition without (connectionId : string) (subscribers : gset string)
  : option (gset string) :=
  let remaining := subscribers ∖ {[connectionId]} in
  if bool_decide (size remaining = 0%nat) then None else Some remaining.

(** What one visit of [deliver] makes of the visited connection. *)
Definition delivered_to (clocks : string -> write_clock) (channel : string)
    (logData : val) (k : string) (conn : connection) : option connection :=
  if write_throws (clocks k) then None
  else Some (sent_to (log_record channel logData (clocks k)) conn).

(** *** Runs of the gateway *)

(** A transition other than the registration of a connection: a [close]
    event, a heartbeat tick, a publish, a test publish. *)
Inductive quiet_step : gateway -> gateway -> Prop :=
  | step_close k g :
      quiet_step g (removeConnection k g)
  | step_heartbeat k g :
      quiet_step g (heartbeat k g)
  | step_publish clocks now req g :
      quiet_step g (snd (handleLogsPublish clocks now req g))
  | step_test clocks now sample b g :
      quiet_step g (snd (handleTestLogs clocks now sample b g)).

(** One transition of the gateway object: a stream request served, under
    whatever id the clock and the random source give, or a quiet step. *)
Inductive step : gateway -> gateway -> Prop :=
  | step_connect clock req g k g' :
      handleLogsSSE clock req g = Returned (k, g') ->
      step g g'
  | step_quiet g g' :
      quiet_step g g' -> step g g'.

Inductive reachable : gateway -> Prop :=
  | reachable_init now : reachable (constructor now)
  | reachable_step g g' : reachable g -> step g g' -> reachable g'.

(** The runs in which every stream request is registered under an id that
    is not in use. *)
Inductive reachable_fresh : gateway -> Prop :=
  | fresh_init now : reachable_fresh (constructor now)
  | fresh_connect clock req g k g' :
      reachable_fresh g ->
      connections g !! k = None ->
      handleLogsSSE clock req g = Returned (k, g') ->
      reachable_fresh g'
  | fresh_quiet g g' :
      reachable_fresh g -> quiet_step g g' -> reachable_fresh g'.

(** The registry invariant: the reverse index lists connection [k] under
    channel [c] exactly when [k] is a live connection whose [channels] has
    [c], and it keeps no empty entry. *)
Definition index_exact (g : gateway) : Prop :=
  forall (c k : string),
    (exists subscribers,
        logChannels g !! c = Some subscribers /\ k ∈ subscribers)
    <-> (exists conn, connections g !! k = Some conn /\ c ∈ channels conn).

Definition no_empty_entry (g : gateway) : Prop :=
  forall (c : string) (subscribers : gset string),
    logChannels g !! c = Some subscribers -> subscribers <> ∅.

Definition registry_consistent (g : gateway) : Prop :=
  index_exact g /\ no_empty_entry g.

(** One half of [index_exact]: a live connection is listed under each of
    its channels. *)
Definition index_complete (g : gateway) : Prop :=
  forall (c k : string) (conn : connection),
    connections g !! k = Some conn -> c ∈ channels conn ->
    exists subscribers,
      logChannels g !! c = Some subscribers /\ k ∈ subscribers.

(** Connection [k] is in neither map. *)
Definition unregistered (k : string) (g : gateway) : Prop :=
  connections g !! k = None
  /\ forall (c : string) (subscribers : gset string),
       logChannels g !! c = Some subscribers -> k ∉ subscribers.

(** The stream of a connection was opened with status 200 and its first
    chunk is the connection confirmation listing the connection's
    [channels]. *)
Definition greeted (conn : connection) : Prop :=
  statusCode (res conn) = 200
  /\ exists now rest,
       written (res conn)
       = hello_record (channels conn) (userId conn) (connectionId conn) now
         :: rest.

Definition all_greeted (g : gateway) : Prop :=
  forall k conn, connections g !! k = Some conn -> greeted conn.

(** The subscribers of a channel that [broadcastLog] writes to: those with a
    live connection whose write does not throw. *)
Definition receives (clocks : string -> write_clock) (g : gateway)
    (k : string) : bool :=
  bool_decide (is_Some (connections g !! k))
  && negb (write_throws (clocks k)).

(** ** The specification's wording, for comparison with the code *)

Module Spec.

(** Element 1 of the channel name, its service component. *)
Definition service_component (channel : string) : option string :=
  split ":" channel !! 1%nat.

(** A body property is present when the body has it. *)
Definition present (v : val) : bool :=
  match v with
  | VUndef => false
  | _ => true
  end.

(** Channel derivation by presence of [function_id], then [workflow_id]. *)
Definition channel_by_presence (b : publish_body) : outcome string :=
  if present (function_id b) then
    bind (to_string (workspace_id b)) (fun w =>
    bind (to_string (function_id b)) (fun f =>
    Returned ("logs:function:" ++ w ++ ":" ++ f)))
  else if present (workflow_id b) then
    bind (to_string (service b)) (fun s =>
    bind (to_string (workspace_id b)) (fun w =>
    bind (to_string (workflow_id b)) (fun r =>
    Returned ("logs:" ++ s ++ ":" ++ w ++ ":" ++ r))))
  else
    bind (to_string (service b)) (fun s =>
    bind (to_string (workspace_id b)) (fun w =>
    Returned ("logs:" ++ s ++ ":" ++ w))).

(** The declared service equals the service component of the channel. *)
Definition declared_service_matches (b : publish_body) : Prop :=
  exists s c, service b = VStr s
              /\ publish_channel b = Returned c
              /\ service_component c = Some s.

Definition publish_authorized (req : publish_request) : Prop :=
  declared_service_matches (body req)
  /\ validateLogPublisher (x_service_token req) (service (body req)) = true.

Definition unauthorized_service : reply :=
  {| reply_status := 403;
     reply_body := VObj [("error", VStr "unauthorized_service")] |}.

(** A publish is accepted only if authorized; otherwise it is answered
    403 [unauthorized_service] and nothing is delivered. *)
Definition publish_checked (clocks : string -> write_clock) (now : Z)
    (req : publish_request) (g : gateway) : Prop :=
  (forall r,
      fst (handleLogsPublish clocks now req g) = Returned r ->
      reply_status r = 200 -> publish_authorized req)
  /\ (~ publish_authorized req ->
      handleLogsPublish clocks now req g
      = (Returned unauthorized_service, g)).

(** Subscribe filter: first component [logs], service and workspace
    components non-empty, workspace among the principal's. *)
Definition channel_permitted (u : user) (channel : string) : Prop :=
  let parts := split ":" channel in
  parts !! 0%nat = Some "logs"
  /\ (exists s, parts !! 1%nat = Some s /\ s <> "")
  /\ (exists w, parts !! 2%nat = Some w /\ w <> "" /\ w ∈ workspace_ids u).

(** The default capacity of a send queue. *)
Definition Q : Z := 256.

(** The tokens the validator lists. *)
Definition recognized_tokens : list string :=
  ["l5-etl-token"; "faas-token"; "function-token"; "service-token"].

(** The fields of a data record's JSON object. *)
Definition data_record_fields : list string :=
  ["channel"; "data"; "timestamp"; "id"].

End Spec.

(** [workflow_id] and [function_id] with a falsy value replaced by
    [undefined]. *)
Definition skip_falsy (v : val) : val :=
  if truthy v then v else VUndef.

Definition skip_falsy_ids (b : publish_body) : publish_body :=
  {| service := service b; workspace_id := workspace_id b;
     workflow_id := skip_falsy (workflow_id b);
     function_id := skip_falsy (function_id b);
     logData := logData b |}.

(** ** Sample requests and states *)

Module Sample.

Definition clock : sse_clock :=
  {| sse_now_id := 1700000000000; sse_random := "k3x9q2m1z";
     sse_now_connected := 1700000000000; sse_now_hello := 1700000000001 |}.

Definition clocks (k : string) : write_clock :=
  {| write_now := 1700000000500; write_now_id := 1700000000500;
     write_random := "p0o9i8u7y"; write_throws := false |}.

Definition channel : string := "logs:etl:workspace123".

Definition subscriber : string := "user123_1700000000000_k3x9q2m1z".

Definition subscribe_to (q : string) : stream_request :=
  {| x_user_id := None; query_channels := QString q |}.

Definition after (r : outcome (string * gateway)) : gateway :=
  match r with
  | Returned (_, g) => g
  | Threw _ => constructor 0
  end.

(** One subscriber on [channel]. *)
Definition one_subscriber : gateway :=
  after (handleLogsSSE clock (subscribe_to channel) (constructor 0)).

Definition info : val :=
  VObj [("level", VStr "INFO"); ("message", VStr "hello")].

Definition etl_publish (data : val) : publish_request :=
  {| x_service_token := Some "l5-etl-token";
     body := {| service := VStr "etl"; workspace_id := VStr "workspace123";
                workflow_id := VUndef; function_id := VUndef;
                logData := data |} |}.

(** A publish with token [faas-token] for service [faas] and a function. *)
Definition faas_function_publish : publish_request :=
  {| x_service_token := Some "faas-token";
     body := {| service := VStr "faas"; workspace_id := VStr "workspace123";
                workflow_id := VUndef; function_id := VStr "f1";
                logData := info |} |}.

Definition wrong_token_publish : publish_request :=
  {| x_service_token := Some "wrong";
     body := {| service := VStr "etl"; workspace_id := VStr "workspace123";
                workflow_id := VUndef; function_id := VUndef;
                logData := info |} |}.

(** A body whose [function_id] is the empty string. *)
Definition empty_function_id : publish_body :=
  {| service := VStr "etl"; workspace_id := VStr "workspace123";
     workflow_id := VStr "workflow456"; function_id := VStr "";
     logData := info |}.


(** The connection of [one_subscriber]. *)
Definition served : connection :=
  accepted_connection clock (mock_user (subscribe_to channel)) [channel].

(** The gateway after [n] publishes to [channel], none of them read. *)
Fixpoint published (n : nat) (g : gateway) : gateway :=
  match n with
  | O => g
  | S n' => snd (handleLogsPublish clocks 0 (etl_publish info)
                   (published n' g))
  end.

End Sample.

(** ** The read-only endpoints *)

(** [this.stats] as [res.json] sends it. *)
Definition stats_object (s : statistics) : val :=
  VObj [ ("totalConnections", num (totalConnections s));
         ("logsPublished", num (logsPublished s));
         ("startTime", num (startTime s)) ].

(** [GET /health] at time [now]. *)
Definition handleHealth (now : Z) (g : gateway) : reply :=
  {| reply_status := 200;
     reply_body :=
       VObj [ ("status", VStr "healthy");
              ("connections", num (Z.of_nat (size (connections g))));
              ("channels", num (Z.of_nat (size (logChannels g))));
              ("stats", stats_object (stats g));
              ("uptime", num (now - startTime (stats g))) ] |}.

(** The object [GET /admin/logs/stats] builds for one member of a channel's
    set: [conn?.userId || 'unknown'], [conn?.connectedAt] and
    [conn?.logsSent || 0], where [conn] is [undefined] for an id with no
    connection. *)
Definition connection_stats (g : gateway) (connId : string) : val :=
  let conn := connections g !! connId in
  VObj [ ("connectionId", VStr connId);
         ("userId",
          match conn with
          | Some c => if bool_decide (userId c = "") then VStr "unknown"
                      else VStr (userId c)
          | None => VStr "unknown"
          end);
         ("connectedAt",
          match conn with
          | Some c => num (connectedAt c)
          | None => VUndef
          end);
         ("logsSent",
          match conn with
          | Some c => num (logsSent c)
          | None => num 0
          end) ].

(** ** Notions for the further properties *)

(** A chunk that opens with an [id:] line, as the records of
    [broadcastLog] do. *)
Definition is_data_record (chunk : string) : bool :=
  String.prefix "id: " chunk.

(** The heartbeat chunk. *)
Definition ping : string := ":ping" ++ nl ++ nl.

(** The string has no occurrence of the character. *)
Fixpoint lacks (sep : ascii) (s : string) : bool :=
  match s with
  | EmptyString => true
  | String c r => negb (Ascii.eqb c sep) && lacks sep r
  end.

(** Every connection is stored under its own id and has a user id. *)
Definition identified (g : gateway) : Prop :=
  forall k conn,
    connections g !! k = Some conn ->
    connectionId conn = k /\ userId conn <> "".

(** The stream of a connection: the confirmation, then data records and
    heartbeats only, the data records as many as [logsSent] says. *)
Definition accounted (conn : connection) : Prop :=
  exists now rest,
    written (res conn)
    = hello_record (channels conn) (userId conn) (connectionId conn) now
      :: rest
    /\ Forall (fun chunk => is_data_record chunk = true \/ chunk = ping) rest
    /\ logsSent conn
       = Z.of_nat (length (filter (fun chunk => is_data_record chunk = true)
                             rest)).

Definition all_accounted (g : gateway) : Prop :=
  forall k conn, connections g !! k = Some conn -> accounted conn.

(** Every channel of every connection passed the subscribe filter. *)
Definition all_permitted (g : gateway) : Prop :=
  forall k conn c,
    connections g !! k = Some conn -> c ∈ channels conn ->
    split ":" c !! 0%nat = Some "logs"
    /\ exists w, split ":" c !! 2%nat = Some w
                 /\ (w = "workspace123" \/ w = "workspace456").

(** Every channel of the reverse index passed the subscribe filter. *)
Definition index_permitted (g : gateway) : Prop :=
  forall c subscribers,
    logChannels g !! c = Some subscribers ->
    split ":" c !! 0%nat = Some "logs"
    /\ exists w, split ":" c !! 2%nat = Some w
                 /\ (w = "workspace123" \/ w = "workspace456").

(** ** Further sample states *)

Module Scenario.

Definition clock2 : sse_clock :=
  {| sse_now_id := 1700000000100; sse_random := "a1b2c3d4e";
     sse_now_connected := 1700000000100; sse_now_hello := 1700000000101 |}.

Definition second : string := "user123_1700000000100_a1b2c3d4e".

Definition other_channel : string := "logs:faas:workspace456:wf789".

(** [Sample.one_subscriber] and a second connection, on [other_channel]. *)
Definition two_subscribers : gateway :=
  Sample.after
    (handleLogsSSE clock2 (Sample.subscribe_to other_channel)
       Sample.one_subscriber).

(** A second stream request that draws the readings of the first, and so
    its connection id, on [other_channel]. *)
Definition reused : gateway :=
  Sample.after
    (handleLogsSSE Sample.clock (Sample.subscribe_to other_channel)
       Sample.one_subscriber).

(** A stream request with the [channels] parameter given twice. *)
Definition repeated_parameter : stream_request :=
  {| x_user_id := None;
     query_channels := QArray [Sample.channel; Sample.channel] |}.

(** An object with a key [toString], as a JSON body can carry one. *)
Definition shadowing : val := VObj [("toString", VNull)].

(** An accepted publish whose [workspace_id] cannot be converted. *)
Definition shadowing_publish : publish_request :=
  {| x_service_token := Some "l5-etl-token";
     body := {| service := VStr "etl"; workspace_id := shadowing;
                workflow_id := VUndef; function_id := VUndef;
                logData := Sample.info |} |}.

(** Every write throws. *)
Definition failing_clocks (k : string) : write_clock :=
  {| write_now := 1700000000600; write_now_id := 1700000000600;
     write_random := "q1w2e3r4t"; write_throws := true |}.

(** A publish on a channel of a workspace the mock user does not have. *)
Definition foreign_publish : publish_request :=
  {| x_service_token := Some "l5-etl-token";
     body := {| service := VStr "etl"; workspace_id := VStr "workspace999";
                workflow_id := VUndef; function_id := VUndef;
                logData := Sample.info |} |}.

(** A publish with a workflow, as the test endpoint expects one. *)
Definition workflow_publish : publish_request :=
  {| x_service_token := Some "l5-etl-token";
     body := {| service := VStr "etl"; workspace_id := VStr "workspace123";
                workflow_id := VStr "workflow456"; function_id := VUndef;
                logData := Sample.info |} |}.

End Scenario.

(** A closed decidable proposition, settled by evaluation. *)
Ltac by_evaluation := apply (bool_decide_unpack _); vm_compute; exact I.

(** ** Properties *)

(** *** Conversions *)

Lemma to_string_string (s : string) : to_string (VStr s) = Returned s.
Proof. reflexivity. Qed.

(** A number from [1e21] up is printed with an exponent. *)
Lemma to_string_large :
  to_string (num (10 ^ 21)) = Returned "1e+21"
  /\ to_string (num (10 ^ 21 - 1)) = Returned "999999999999999999999"
  /\ to_string (VNum (NFinite false [D1; D5] 0)) = Returned "0.15"
  /\ stringify (num (10 ^ 21)) = Some "1e+21".
Proof. repeat split; vm_compute; reflexivity. Qed.

(** *** Service tokens *)

Lemma get_service_token (v : val) :
  get (validTokens v) "service-token" = v.
Proof. reflexivity. Qed.

Lemma get_own_unlisted (v : val) (t : string) :
  t ∉ Spec.recognized_tokens -> get_own (validTokens v) t = None.
Proof.
  intros Hnot. unfold Spec.recognized_tokens in Hnot.
  cbn [validTokens get_own].
  repeat case_bool_decide; try reflexivity; subst t;
    exfalso; apply Hnot; rewrite !elem_of_cons; tauto.
Qed.


Lemma strict_eq_string (s : string) : strict_eq (VStr s) (VStr s) = true.
Proof. unfold strict_eq. cbn. by apply bool_decide_eq_true_2. Qed.

Lemma publish_rejected clocks now req g :
  validateLogPublisher (x_service_token req) (service (body req)) = false ->
  handleLogsPublish clocks now req g = (Returned unauthorized, g).
Proof. intros Hv. unfold handleLogsPublish. by rewrite Hv. Qed.

Lemma publish_threw clocks now req g e :
  validateLogPublisher (x_service_token req) (service (body req)) = true ->
  publish_channel (body req) = Threw e ->
  handleLogsPublish clocks now req g = (Threw e, g).
Proof. intros Hv Hc. unfold handleLogsPublish. by rewrite Hv, Hc. Qed.

Lemma publish_accepted clocks now req g c :
  validateLogPublisher (x_service_token req) (service (body req)) = true ->
  publish_channel (body req) = Returned c ->
  handleLogsPublish clocks now req g
  = let r := broadcastLog clocks c (logData (body req)) g in
    (Returned (publish_reply c (fst r) now), count_publish (snd r)).
Proof.
  intros Hv Hc. unfold handleLogsPublish. rewrite Hv, Hc. cbn [negb].
  by destruct (broadcastLog _ _ _ _).
Qed.

(** The gateway after a publish: counted and fanned out, or as it was. *)
Lemma publish_state clocks now req g :
  snd (handleLogsPublish clocks now req g) = g
  \/ exists c,
       publish_channel (body req) = Returned c
       /\ snd (handleLogsPublish clocks now req g)
          = count_publish
              (snd (broadcastLog clocks c (logData (body req)) g)).
Proof.
  destruct (validateLogPublisher (x_service_token req) (service (body req)))
    eqn:Hv.
  - destruct (publish_channel (body req)) as [c|e] eqn:Hc.
    + right. exists c. split; [done|]. by rewrite (publish_accepted _ _ _ _ c).
    + left. by rewrite (publish_threw _ _ _ _ e).
  - left. by rewrite publish_rejected.
Qed.

(** The gateway after a test publish: fanned out, or as it was. *)
Lemma test_state clocks now sample b g :
  snd (handleTestLogs clocks now sample b g) = g
  \/ exists c data,
       snd (handleTestLogs clocks now sample b g)
       = snd (broadcastLog clocks c data g).
Proof.
  unfold handleTestLogs. destruct (test_channel b) as [c|e]; [|by left].
  right. exists c, (if truthy (logData b) then logData b else sample).
  by destruct (broadcastLog _ _ _ _).
Qed.

(** C9. A publish carrying the token [service-token] passes
    [validateLogPublisher] whatever string [s] it declares as its service:
    the one token publishes as any service.  Such a publish is never
    answered 403: it is answered 200, unless building the channel name
    throws. *)
Theorem service_token_any_service (s : string) :
  validateLogPublisher (Some "service-token") (VStr s) = true
  /\ forall clocks now workspace workflow function data g,
       let req := {| x_service_token := Some "service-token";
                     body := {| service := VStr s; workspace_id := workspace;
                                workflow_id := workflow;
                                function_id := function;
                                logData := data |} |} in
       match fst (handleLogsPublish clocks now req g) with
       | Returned r => reply_status r = 200
       | Threw e => publish_channel (body req) = Threw e
       end.
Proof.
  assert (Hv : validateLogPublisher (Some "service-token") (VStr s) = true).
  { unfold validateLogPublisher, property_key.
    rewrite get_service_token. apply strict_eq_string. }
  split; [exact Hv|]. intros. subst req.
  match goal with
  | |- context [handleLogsPublish _ _ ?r _] => set (req := r)
  end.
  destruct (publish_channel (body req)) as [c|e] eqn:Hc.
  - by rewrite (publish_accepted _ _ req _ c).
  - by rewrite (publish_threw _ _ req _ e).
Qed.




(** *** Publish authorization and channel derivation *)

(** C1, as stated, fails twice.  The publish [faas_function_publish] is
    accepted although its declared service [faas] is not the service
    component [function] of its channel; and the publish with a wrong token
    is answered with the error text [Unauthorized log publisher], not
    [unauthorized_service]. *)
Lemma publish_not_checked_as_specified :
  ~ Spec.publish_checked Sample.clocks 0 Sample.faas_function_publish
      Sample.one_subscriber
  /\ ~ Spec.publish_checked Sample.clocks 0 Sample.wrong_token_publish
         Sample.one_subscriber.
Proof.
  split.
  - intros [Haccepted _].
    destruct (Haccepted _ eq_refl eq_refl) as [(s & c & Hs & Hc & Hsc) _].
    cbn in Hs. injection Hs as <-. vm_compute in Hc. injection Hc as <-.
    vm_compute in Hsc. discriminate Hsc.
  - intros [_ Hrejected].
    assert (Hno : ~ Spec.publish_authorized Sample.wrong_token_publish).
    { intros [_ Hv]. vm_compute in Hv. discriminate Hv. }
    apply Hrejected in Hno.
    apply (f_equal fst) in Hno. vm_compute in Hno. discriminate Hno.
Qed.

(** C1, amended. A publish is accepted (answered 200) exactly when
    [validateLogPublisher] accepts the token for the declared service and
    the channel name can be built; the declared service is not compared
    with the channel.  When the validator rejects, the answer is 403 with
    the body [{error: 'Unauthorized log publisher'}] and the gateway is left
    as it was: nothing is written to any subscriber.  When the validator
    accepts and building the channel name throws, the handler ends with that
    exception and the gateway is left as it was, too. *)
Theorem publish_authorization clocks now req g :
  ((exists r, fst (handleLogsPublish clocks now req g) = Returned r
              /\ reply_status r = 200)
   <-> validateLogPublisher (x_service_token req) (service (body req)) = true
       /\ exists c, publish_channel (body req) = Returned c)
  /\ (validateLogPublisher (x_service_token req) (service (body req)) = false
      -> handleLogsPublish clocks now req g
         = (Returned
              {| reply_status := 403;
                 reply_body :=
                   VObj [("error", VStr "Unauthorized log publisher")] |},
            g))
  /\ (forall e,
        validateLogPublisher (x_service_token req) (service (body req)) = true
        -> publish_channel (body req) = Threw e
        -> handleLogsPublish clocks now req g = (Threw e, g)).
Proof.
  split; [|split; [apply publish_rejected|intros e; apply publish_threw]].
  destruct (validateLogPublisher _ _) eqn:Hv.
  - destruct (publish_channel (body req)) as [c|e] eqn:Hc.
    + rewrite (publish_accepted _ _ _ _ c) by done. cbn. split; [by eauto|].
      intros _. eexists. by split.
    + rewrite (publish_threw _ _ _ _ e) by done. cbn.
      split; [by intros (r & [=] & _)|by intros (_ & c & [=])].
  - rewrite publish_rejected by done. cbn.
    split; [by intros (r & [= <-] & [=])|by intros [[=] _]].
Qed.

(** C2, as stated, fails: a body whose [function_id] is present but is the
    empty string is published on the workflow channel, not on
    [logs:function:<workspace_id>:].  And a body whose [workspace_id] is an
    object with a key [toString] has no channel at all. *)
Lemma empty_function_id_not_preferred :
  Spec.present (function_id Sample.empty_function_id) = true
  /\ publish_channel Sample.empty_function_id
     = Returned "logs:etl:workspace123:workflow456"
  /\ Spec.channel_by_presence Sample.empty_function_id
     = Returned "logs:function:workspace123:"
  /\ publish_channel Sample.empty_function_id
     <> Spec.channel_by_presence Sample.empty_function_id
  /\ publish_channel (body Scenario.shadowing_publish)
     = Threw not_primitive.
Proof. repeat split; try reflexivity. vm_compute. discriminate. Qed.

Lemma skip_falsy_present (v : val) :
  Spec.present (skip_falsy v) = truthy v.
Proof. unfold skip_falsy. destruct (truthy v) eqn:Hv; [|done]. by destruct v. Qed.

Lemma skip_falsy_truthy (v : val) : truthy v = true -> skip_falsy v = v.
Proof. unfold skip_falsy. by intros ->. Qed.

(** C2, amended. The precedence is decided by truthiness, not presence: the
    channel is the one the stated rule gives once a [function_id] or
    [workflow_id] that is falsy (the empty string, [null], [0], [false]) is
    taken as absent, each part of the name being the string conversion of
    its field.  So a truthy [function_id] gives
    [logs:function:<workspace_id>:<function_id>]; otherwise a truthy
    [workflow_id] gives [logs:<service>:<workspace_id>:<workflow_id>];
    otherwise the channel is [logs:<service>:<workspace_id>].  A channel is
    built whenever the fields convert; when a field of the chosen form does
    not, building the channel throws. *)
Theorem publish_channel_precedence (b : publish_body) :
  publish_channel b = Spec.channel_by_presence (skip_falsy_ids b)
  /\ (forall w f,
        truthy (function_id b) = true ->
        to_string (workspace_id b) = Returned w ->
        to_string (function_id b) = Returned f ->
        publish_channel b = Returned ("logs:function:" ++ w ++ ":" ++ f))
  /\ (forall s w r,
        truthy (function_id b) = false -> truthy (workflow_id b) = true ->
        to_string (service b) = Returned s ->
        to_string (workspace_id b) = Returned w ->
        to_string (workflow_id b) = Returned r ->
        publish_channel b
        = Returned ("logs:" ++ s ++ ":" ++ w ++ ":" ++ r))
  /\ (forall s w,
        truthy (function_id b) = false -> truthy (workflow_id b) = false ->
        to_string (service b) = Returned s ->
        to_string (workspace_id b) = Returned w ->
        publish_channel b = Returned ("logs:" ++ s ++ ":" ++ w))
  /\ (forall s w r f,
        to_string (service b) = Returned s ->
        to_string (workspace_id b) = Returned w ->
        to_string (workflow_id b) = Returned r ->
        to_string (function_id b) = Returned f ->
        exists c, publish_channel b = Returned c)
  /\ (forall e,
        publish_channel b = Threw e ->
        to_string (workspace_id b) = Threw e
        \/ (truthy (function_id b) = true
            /\ to_string (function_id b) = Threw e)
        \/ (truthy (function_id b) = false
            /\ (to_string (service b) = Threw e
                \/ (truthy (workflow_id b) = true
                    /\ to_string (workflow_id b) = Threw e)))).
Proof.
  split; [|split; [|split; [|split; [|split]]]].
  - unfold publish_channel, Spec.channel_by_presence, skip_falsy_ids; cbn.
    rewrite !skip_falsy_present.
    destruct (truthy (function_id b)) eqn:Hf.
    + by rewrite skip_falsy_truthy.
    + destruct (truthy (workflow_id b)) eqn:Hw; [|done].
      by rewrite skip_falsy_truthy.
  - intros w f Hf Hw Hfn. unfold publish_channel. by rewrite Hf, Hw, Hfn.
  - intros s w r Hf Hwf Hs Hw Hr. unfold publish_channel.
    by rewrite Hf, Hwf, Hs, Hw, Hr.
  - intros s w Hf Hwf Hs Hw. unfold publish_channel.
    by rewrite Hf, Hwf, Hs, Hw.
  - intros s w r f Hs Hw Hr Hf. unfold publish_channel.
    rewrite Hs, Hw, Hr, Hf. cbn. by repeat case_match; eauto.
  - intros e. unfold publish_channel.
    destruct (truthy (function_id b)).
    + destruct (to_string (workspace_id b)); cbn; [|by intros [= <-]; left].
      destruct (to_string (function_id b)); cbn; [done|].
      intros [= <-]. by right; left.
    + destruct (truthy (workflow_id b)).
      * destruct (to_string (service b)); cbn;
          [|by intros [= <-]; right; right; split; [|left]].
        destruct (to_string (workspace_id b)); cbn; [|by intros [= <-]; left].
        destruct (to_string (workflow_id b)); cbn; [done|].
        intros [= <-]. right; right. split; [done|]. by right.
      * destruct (to_string (service b)); cbn;
          [|by intros [= <-]; right; right; split; [|left]].
        destruct (to_string (workspace_id b)); cbn; [|by intros [= <-]; left].
        done.
Qed.

(** Numbers are interpolated as [Number.prototype.toString] prints them. *)
Lemma publish_channel_number :
  publish_channel
    {| service := VStr "etl"; workspace_id := num (10 ^ 21);
       workflow_id := num 7; function_id := VUndef; logData := VUndef |}
  = Returned "logs:etl:1e+21:7".
Proof. vm_compute. reflexivity. Qed.

(** *** Subscribing *)

Lemma channel_allowed_iff (u : user) (c : string) :
  channel_allowed u c = true
  <-> split ":" c !! 0%nat = Some "logs"
      /\ exists w, split ":" c !! 2%nat = Some w /\ w ∈ workspace_ids u.
Proof.
  unfold channel_allowed. rewrite andb_true_iff, bool_decide_eq_true.
  destruct (split ":" c !! 2%nat) as [w|].
  - rewrite bool_decide_eq_true. split.
    + intros [? ?]. eauto.
    + intros [? (w' & [= <-] & ?)]. done.
  - split; [intros [_ [=]]|intros [_ (w & [=] & _)]].
Qed.

Lemma getUserLogChannels_filter (u : user) (requested : list string) :
  getUserLogChannels u requested
  = filter (fun c => channel_allowed u c = true) requested.
Proof.
  induction requested as [|c rest IH]; [done|].
  cbn [getUserLogChannels]. rewrite filter_cons.
  destruct (channel_allowed u c) eqn:Hc.
  - rewrite decide_True by done. by rewrite IH.
  - rewrite decide_False by (by intros [=]). done.
Qed.

Lemma elem_of_getUserLogChannels (u : user) (requested : list string)
    (c : string) :
  c ∈ getUserLogChannels u requested
  <-> c ∈ requested /\ channel_allowed u c = true.
Proof. rewrite getUserLogChannels_filter, list_elem_of_filter. tauto. Qed.

Lemma handleLogsSSE_returned clock req g requested :
  requestedChannels (query_channels req) = Returned requested ->
  handleLogsSSE clock req g
  = let u := mock_user req in
    let k := new_connection_id (id u) clock in
    let allowed := getUserLogChannels u requested in
    Returned
      (k, {| connections :=
               <[k := accepted_connection clock u allowed]> (connections g);
             logChannels := foldl (subscribe k) (logChannels g) allowed;
             stats := {| totalConnections := totalConnections (stats g) + 1;
                         logsPublished := logsPublished (stats g);
                         startTime := startTime (stats g) |} |}).
Proof.
  intros Hq. unfold handleLogsSSE. rewrite Hq. cbv zeta.
  by rewrite alter_insert_eq.
Qed.

Lemma handleLogsSSE_threw clock req g e :
  requestedChannels (query_channels req) = Threw e ->
  handleLogsSSE clock req g = Threw e.
Proof. intros Hq. unfold handleLogsSSE. by rewrite Hq. Qed.

Lemma requestedChannels_string (s : string) :
  exists requested, requestedChannels (QString s) = Returned requested.
Proof. cbn. case_bool_decide; eauto. Qed.

Lemma third_has_second (l : list string) (w : string) :
  l !! 2%nat = Some w -> exists s, l !! 1%nat = Some s.
Proof. destruct l as [|a [|b l]]; [done|done|]. by exists b. Qed.

Lemma mock_workspace_nonempty req (w : string) :
  w ∈ workspace_ids (mock_user req) -> w <> "".
Proof.
  cbn. rewrite !elem_of_cons, elem_of_nil. intros [->|[->|[]]]; done.
Qed.

(** C3, as stated, fails: the channel [logs::workspace123], whose service
    component is empty, is kept by the filter and becomes a channel of the
    connection.  And a request that gives the [channels] parameter twice is
    not served with its channels filtered: the handler throws. *)
Lemma empty_service_channel_subscribed :
  ~ Spec.channel_permitted (mock_user (Sample.subscribe_to "logs::workspace123"))
      "logs::workspace123"
  /\ getUserLogChannels (mock_user (Sample.subscribe_to "logs::workspace123"))
       ["logs::workspace123"]
     = ["logs::workspace123"]
  /\ channels
       <$> (connections
              (Sample.after
                 (handleLogsSSE Sample.clock
                    (Sample.subscribe_to "logs::workspace123")
                    (constructor 0)))
            !! Sample.subscriber)
     = Some ["logs::workspace123"]
  /\ handleLogsSSE Sample.clock Scenario.repeated_parameter (constructor 0)
     = Threw "TypeError: req.query.channels.split is not a function".
Proof.
  split; [|split; [|split]; reflexivity].
  intros (_ & (s & Hs & Hne) & _). vm_compute in Hs.
  injection Hs as <-. by apply Hne.
Qed.

(** C3, amended. In a request whose [channels] parameter is missing or is
    given once (a string), the requested channels are the parts of that
    string between commas, and a requested channel is in the connection's
    [channels] exactly when the first component of its name is [logs] and
    its third component exists and is one of the principal's workspaces; the
    service component is not inspected and may be empty.  The filter keeps
    request order, every other requested channel is left out, and no error
    is reported: the request is served with status 200.  A request that
    gives the parameter more than once is not served: the handler throws. *)
Theorem subscribe_filter clock (req : stream_request) g :
  let u := mock_user req in
  match query_channels req with
  | QArray _ => exists e, handleLogsSSE clock req g = Threw e
  | q =>
      let requested :=
        match q with
        | QString s => if bool_decide (s = "") then [] else split "," s
        | _ => []
        end in
      exists k g' conn,
        handleLogsSSE clock req g = Returned (k, g')
        /\ connections g' !! k = Some conn
        /\ statusCode (res conn) = 200
        /\ channels conn
           = filter (fun c => channel_allowed u c = true) requested
        /\ (forall c,
               c ∈ channels conn
               <-> c ∈ requested
                   /\ split ":" c !! 0%nat = Some "logs"
                   /\ exists w, split ":" c !! 2%nat = Some w
                                /\ w ∈ workspace_ids u)
        /\ (forall c,
               c ∈ channels conn
               <-> c ∈ requested
                   /\ (Spec.channel_permitted u c
                       \/ split ":" c !! 0%nat = Some "logs"
                          /\ split ":" c !! 1%nat = Some ""
                          /\ exists w, split ":" c !! 2%nat = Some w
                                       /\ w ∈ workspace_ids u))
  end.
Proof.
  intros u.
  assert (Hserved : forall requested,
    requestedChannels (query_channels req) = Returned requested ->
    exists k g' conn,
      handleLogsSSE clock req g = Returned (k, g')
      /\ connections g' !! k = Some conn
      /\ statusCode (res conn) = 200
      /\ channels conn
         = filter (fun c => channel_allowed u c = true) requested
      /\ (forall c,
             c ∈ channels conn
             <-> c ∈ requested
                 /\ split ":" c !! 0%nat = Some "logs"
                 /\ exists w, split ":" c !! 2%nat = Some w
                              /\ w ∈ workspace_ids u)
      /\ (forall c,
             c ∈ channels conn
             <-> c ∈ requested
                 /\ (Spec.channel_permitted u c
                     \/ split ":" c !! 0%nat = Some "logs"
                        /\ split ":" c !! 1%nat = Some ""
                        /\ exists w, split ":" c !! 2%nat = Some w
                                     /\ w ∈ workspace_ids u))).
  { intros requested Hq. eexists _, _, _.
    split; [by apply handleLogsSSE_returned|].
    cbn [connections]. split; [apply lookup_insert_eq|].
    cbn [accepted_connection res statusCode channels].
    split; [done|]. split; [apply getUserLogChannels_filter|].
    split; intros c; rewrite elem_of_getUserLogChannels, channel_allowed_iff.
    - done.
    - split; intros [Hreq Hc]; (split; [exact Hreq|]).
      + destruct Hc as (Hlogs & w & Hw & Hin).
        destruct (third_has_second _ _ Hw) as [s Hs].
        destruct (decide (s = "")) as [->|Hne]; [by eauto 10|].
        left. split; [exact Hlogs|]. split; [by eauto|].
        exists w. split; [exact Hw|]. split; [|exact Hin].
        by apply (mock_workspace_nonempty req).
      + destruct Hc as [(Hlogs & _ & w & Hw & _ & Hin)
                       |(Hlogs & _ & w & Hw & Hin)]; eauto. }
  destruct (query_channels req) as [|s|l] eqn:Hq.
  - by apply Hserved.
  - apply Hserved. cbn. by case_bool_decide.
  - eexists. apply handleLogsSSE_threw. by rewrite Hq.
Qed.

(** *** The reverse index under [subscribe] and [unsubscribe] *)

Lemma subscribe_lookup k (index : gmap string (gset string)) c c' :
  subscribe k index c !! c'
  = if decide (c = c') then Some (default ∅ (index !! c) ∪ {[k]})
    else index !! c'.
Proof.
  unfold subscribe. rewrite lookup_alter.
  destruct (decide (c = c')) as [<-|Hne].
  - destruct (index !! c) as [s|] eqn:Hc.
    + by rewrite Hc.
    + by rewrite lookup_insert_eq.
  - destruct (index !! c); [done|]. by rewrite lookup_insert_ne.
Qed.

Lemma foldl_subscribe_lookup k l (index : gmap string (gset string)) c :
  foldl (subscribe k) index l !! c
  = if decide (c ∈ l) then Some (default ∅ (index !! c) ∪ {[k]})
    else index !! c.
Proof.
  revert index. induction l as [|a l IH]; intros index; [done|].
  cbn [foldl]. rewrite IH, subscribe_lookup.
  destruct (decide (a = c)) as [->|Hne].
  - rewrite (decide_True (P := c ∈ c :: l)) by apply list_elem_of_here.
    destruct (decide (c ∈ l)); [|done].
    cbn [default]. f_equal. set_solver.
  - destruct (decide (c ∈ l)) as [Hin|Hnot].
    + by rewrite (decide_True (P := c ∈ a :: l))
        by (by apply list_elem_of_further).
    + rewrite (decide_False (P := c ∈ a :: l)); [done|].
      intros [->|?]%elem_of_cons; done.
Qed.

Lemma without_Some k (s r : gset string) :
  without k s = Some r <-> r = s ∖ {[k]} /\ r <> ∅.
Proof.
  unfold without. case_bool_decide as Hsize.
  - apply size_empty_iff in Hsize. split; [done|].
    intros [-> Hne]. destruct Hne. by apply leibniz_equiv.
  - split.
    + intros [= <-]. split; [done|]. intros Hempty. apply Hsize.
      rewrite Hempty. apply size_empty.
    + by intros [-> _].
Qed.

Lemma without_idempotent k (o : option (gset string)) :
  (o ≫= without k) ≫= without k = o ≫= without k.
Proof.
  destruct o as [s|]; [|done]. cbn.
  destruct (without k s) as [r|] eqn:Hr; [|done]. cbn.
  apply without_Some in Hr as [-> Hne]. apply without_Some.
  split; [set_solver|done].
Qed.

Lemma unsubscribe_lookup k (index : gmap string (gset string)) c c' :
  unsubscribe k index c !! c'
  = if decide (c = c') then index !! c ≫= without k else index !! c'.
Proof.
  unfold unsubscribe.
  destruct (decide (c = c')) as [<-|Hne].
  - destruct (index !! c) as [s|] eqn:Hc; [|by rewrite Hc].
    cbn. unfold without. case_bool_decide.
    + apply lookup_delete_eq.
    + apply lookup_insert_eq.
  - destruct (index !! c) as [s|]; [|done].
    case_bool_decide.
    + by apply lookup_delete_ne.
    + by apply lookup_insert_ne.
Qed.

Lemma foldl_unsubscribe_lookup k l (index : gmap string (gset string)) c :
  foldl (unsubscribe k) index l !! c
  = if decide (c ∈ l) then index !! c ≫= without k else index !! c.
Proof.
  revert index. induction l as [|a l IH]; intros index; [done|].
  cbn [foldl]. rewrite IH, unsubscribe_lookup.
  destruct (decide (a = c)) as [->|Hne].
  - rewrite (decide_True (P := c ∈ c :: l)) by apply list_elem_of_here.
    destruct (decide (c ∈ l)); [|done].
    apply without_idempotent.
  - destruct (decide (c ∈ l)) as [Hin|Hnot].
    + by rewrite (decide_True (P := c ∈ a :: l))
        by (by apply list_elem_of_further).
    + rewrite (decide_False (P := c ∈ a :: l)); [done|].
      intros [->|?]%elem_of_cons; done.
Qed.

(** *** The registry invariant *)

Lemma constructor_consistent now : registry_consistent (constructor now).
Proof.
  split.
  - intros c k. cbn. split.
    + intros (s & Hs & _). by rewrite lookup_empty in Hs.
    + intros (conn & Hc & _). by rewrite lookup_empty in Hc.
  - intros c s Hs. cbn in Hs. by rewrite lookup_empty in Hs.
Qed.

(** The invariant reads the two maps only, and of a connection only its
    [channels]. *)
Lemma registry_consistent_ext g g' :
  logChannels g' = logChannels g ->
  (forall k, channels <$> connections g' !! k
             = channels <$> connections g !! k) ->
  registry_consistent g -> registry_consistent g'.
Proof.
  intros Hlc Hcs [Hexact Hne]. unfold index_exact, no_empty_entry in *.
  split.
  - intros c k. rewrite Hlc, Hexact. specialize (Hcs k).
    destruct (connections g' !! k) as [c1|], (connections g !! k) as [c2|];
      cbn in Hcs; try discriminate Hcs.
    + injection Hcs as Hcs. split; intros (? & [= <-] & ?); eexists;
        (split; [done|]); congruence.
    + split; intros (? & [=] & _).
  - intros c s. rewrite Hlc. apply Hne.
Qed.

Lemma alter_keeps_channels (f : connection -> connection) k
    (cs : gmap string connection) k' :
  (forall conn, channels (f conn) = channels conn) ->
  channels <$> alter f k cs !! k' = channels <$> cs !! k'.
Proof.
  intros Hf. rewrite lookup_alter. case_decide as Hk; [subst k'|done].
  destruct (cs !! k); cbn; [by rewrite Hf|done].
Qed.

Lemma connect_consistent clock req g k g' :
  connections g !! new_connection_id (id (mock_user req)) clock = None ->
  handleLogsSSE clock req g = Returned (k, g') ->
  registry_consistent g -> registry_consistent g'.
Proof.
  intros Hfresh Hrun [Hexact Hne]. unfold index_exact, no_empty_entry in *.
  destruct (requestedChannels (query_channels req)) as [requested|e] eqn:Hq.
  2: { by rewrite (handleLogsSSE_threw _ _ _ _ Hq) in Hrun. }
  rewrite (handleLogsSSE_returned _ _ _ _ Hq) in Hrun. cbv zeta in Hrun.
  injection Hrun as <- <-.
  set (u := mock_user req) in *. set (k := new_connection_id (id u) clock) in *.
  set (allowed := getUserLogChannels u requested).
  split.
  - intros c k'. cbn [connections logChannels].
    rewrite foldl_subscribe_lookup.
    destruct (decide (k = k')) as [<-|Hk].
    + rewrite lookup_insert_eq. split.
      * intros (s & Hs & Hin). eexists. split; [done|]. cbn.
        destruct (decide (c ∈ allowed)) as [|Hnot]; [done|].
        destruct (proj1 (Hexact c k)) as (conn & Hconn & _); [by eauto|].
        by rewrite Hfresh in Hconn.
      * intros (conn & [= <-] & Hin). cbn in Hin.
        rewrite decide_True by done. eexists. split; [done|]. set_solver.
    + rewrite lookup_insert_ne by done. rewrite <- Hexact.
      destruct (decide (c ∈ allowed)) as [Hin|]; [|done].
      split.
      * intros (s & [= <-] & Hk'). destruct (logChannels g !! c) as [s|].
        -- exists s. split; [done|]. cbn in Hk'. set_solver.
        -- cbn in Hk'. set_solver.
      * intros (s & Hs & Hk'). rewrite Hs. eexists. split; [done|].
        cbn. set_solver.
  - intros c s. cbn [logChannels]. rewrite foldl_subscribe_lookup.
    destruct (decide (c ∈ allowed)); [|apply Hne].
    intros [= <-]. set_solver.
Qed.

Lemma removeConnection_consistent k g :
  registry_consistent g -> registry_consistent (removeConnection k g).
Proof.
  intros [Hexact Hne]. unfold index_exact, no_empty_entry in *.
  unfold removeConnection.
  destruct (connections g !! k) as [conn|] eqn:Hconn; [|done].
  split.
  - intros c k'. cbn [connections logChannels].
    rewrite foldl_unsubscribe_lookup.
    destruct (decide (k = k')) as [<-|Hk].
    + rewrite lookup_delete_eq. split; [|by intros (? & [=] & _)].
      intros (s & Hs & Hin). exfalso.
      destruct (decide (c ∈ channels conn)) as [|Hnot].
      * destruct (logChannels g !! c) as [s0|]; [|done]. cbn in Hs.
        apply without_Some in Hs as [-> _]. set_solver.
      * destruct (proj1 (Hexact c k)) as (conn' & Hconn' & Hc); [by eauto|].
        rewrite Hconn in Hconn'. by injection Hconn' as <-.
    + rewrite lookup_delete_ne by done. rewrite <- Hexact.
      destruct (decide (c ∈ channels conn)) as [Hin|]; [|done].
      split.
      * intros (s & Hs & Hk'). destruct (logChannels g !! c) as [s0|]; [|done].
        cbn in Hs. apply without_Some in Hs as [-> _].
        exists s0. split; [done|]. set_solver.
      * intros (s & Hs & Hk'). rewrite Hs. cbn.
        exists (s ∖ {[k]}). split; [|set_solver].
        apply without_Some. split; [done|]. set_solver.
  - intros c s. cbn [logChannels]. rewrite foldl_unsubscribe_lookup.
    destruct (decide (c ∈ channels conn)); [|apply Hne].
    destruct (logChannels g !! c) as [s0|]; [|done]. cbn.
    intros Hs. by apply without_Some in Hs as [_ ?].
Qed.

Lemma removeConnection_unregistered k g :
  registry_consistent g -> unregistered k (removeConnection k g).
Proof.
  intros Hg.
  assert (Hgone : connections (removeConnection k g) !! k = None).
  { unfold removeConnection.
    destruct (connections g !! k) eqn:Hk; [|done].
    cbn. apply lookup_delete_eq. }
  split; [done|]. intros c s Hs Hin.
  apply removeConnection_consistent with (k := k) in Hg as [Hexact _].
  destruct (proj1 (Hexact c k)) as (conn & Hconn & _); [by eauto|].
  by rewrite Hgone in Hconn.
Qed.

(** What a property of the registry needs to last through the quiet
    steps: it lasts through [removeConnection], and it reads the two maps
    only, and of a connection only its [channels]. *)
Section registry_shape.

Variable P : gateway -> Prop.

Hypothesis P_remove : forall k g, P g -> P (removeConnection k g).

Hypothesis P_ext :
  forall g g',
    logChannels g' = logChannels g ->
    (forall k, channels <$> connections g' !! k
               = channels <$> connections g !! k) ->
    P g -> P g'.

Lemma heartbeat_shape k g : P g -> P (heartbeat k g).
Proof.
  unfold heartbeat. destruct (connections g !! k); [|done].
  apply P_ext; [done|]. intros k'. cbn.
  by apply alter_keeps_channels.
Qed.

Lemma deliver_shape clocks channel logData acc k :
  P (snd acc) -> P (snd (deliver clocks channel logData acc k)).
Proof.
  destruct acc as [n g]. cbn [snd]. intros Hg. unfold deliver.
  destruct (connections g !! k); [|done].
  destruct (write_throws (clocks k)); cbn [snd].
  - by apply P_remove.
  - revert Hg. apply P_ext; [done|]. intros k'. cbn.
    by apply alter_keeps_channels.
Qed.

Lemma foldl_deliver_shape clocks channel logData l acc :
  P (snd acc) -> P (snd (foldl (deliver clocks channel logData) acc l)).
Proof.
  revert acc. induction l as [|k l IH]; intros acc Hacc; [done|].
  cbn [foldl]. by apply IH, deliver_shape.
Qed.

Lemma broadcastLog_shape clocks channel logData g :
  P g -> P (snd (broadcastLog clocks channel logData g)).
Proof. intros Hg. unfold broadcastLog. by apply foldl_deliver_shape. Qed.

Lemma handleLogsPublish_shape clocks now req g :
  P g -> P (snd (handleLogsPublish clocks now req g)).
Proof.
  intros Hg.
  destruct (publish_state clocks now req g) as [->|(c & _ & ->)]; [done|].
  apply broadcastLog_shape with (clocks := clocks) (channel := c)
    (logData := logData (body req)) in Hg.
  revert Hg. by apply P_ext.
Qed.

Lemma handleTestLogs_shape clocks now sample b g :
  P g -> P (snd (handleTestLogs clocks now sample b g)).
Proof.
  intros Hg.
  destruct (test_state clocks now sample b g) as [->|(c & data & ->)];
    [done|].
  by apply broadcastLog_shape.
Qed.

Lemma quiet_step_shape g g' : quiet_step g g' -> P g -> P g'.
Proof.
  destruct 1.
  - apply P_remove.
  - apply heartbeat_shape.
  - apply handleLogsPublish_shape.
  - apply handleTestLogs_shape.
Qed.

Hypothesis P_constructor : forall now, P (constructor now).

Lemma reachable_shape :
  (forall clock req g k g',
      handleLogsSSE clock req g = Returned (k, g') -> P g -> P g') ->
  forall g, reachable g -> P g.
Proof.
  intros P_connect g. induction 1 as [now|g g' _ IH Hstep]; [done|].
  destruct Hstep as [clock req g k g' Hrun|g g' Hquiet].
  - by eapply P_connect.
  - by eapply quiet_step_shape.
Qed.

Lemma reachable_fresh_shape :
  (forall clock req g k g',
      connections g !! k = None ->
      handleLogsSSE clock req g = Returned (k, g') -> P g -> P g') ->
  forall g, reachable_fresh g -> P g.
Proof.
  intros P_connect g.
  induction 1 as [now|clock req g k g' _ IH Hfresh Hrun|g g' _ IH Hquiet];
    [done| |].
  - by eapply P_connect.
  - by eapply quiet_step_shape.
Qed.

End registry_shape.

Lemma fresh_reachable g : reachable_fresh g -> reachable g.
Proof.
  induction 1 as [now|clock req g k g' _ IH Hfresh Hrun|g g' _ IH Hquiet].
  - apply reachable_init.
  - eapply reachable_step; [exact IH|]. by eapply step_connect.
  - eapply reachable_step; [exact IH|]. by apply step_quiet.
Qed.

Lemma handleLogsSSE_id clock req g k g' :
  handleLogsSSE clock req g = Returned (k, g') ->
  k = new_connection_id (id (mock_user req)) clock.
Proof.
  intros Hrun.
  destruct (requestedChannels (query_channels req)) as [requested|e] eqn:Hq.
  2: { by rewrite (handleLogsSSE_threw _ _ _ _ Hq) in Hrun. }
  rewrite (handleLogsSSE_returned _ _ _ _ Hq) in Hrun. cbv zeta in Hrun.
  by injection Hrun as <- _.
Qed.

Lemma heartbeat_consistent k g :
  registry_consistent g -> registry_consistent (heartbeat k g).
Proof.
  apply heartbeat_shape. intros g0 g1. apply registry_consistent_ext.
Qed.

Lemma broadcastLog_consistent clocks channel logData g :
  registry_consistent g ->
  registry_consistent (snd (broadcastLog clocks channel logData g)).
Proof.
  apply broadcastLog_shape.
  - apply removeConnection_consistent.
  - intros g0 g1. apply registry_consistent_ext.
Qed.

Lemma handleLogsPublish_consistent clocks now req g :
  registry_consistent g ->
  registry_consistent (snd (handleLogsPublish clocks now req g)).
Proof.
  apply handleLogsPublish_shape.
  - apply removeConnection_consistent.
  - intros g0 g1. apply registry_consistent_ext.
Qed.

Lemma handleTestLogs_consistent clocks now sample b g :
  registry_consistent g ->
  registry_consistent (snd (handleTestLogs clocks now sample b g)).
Proof.
  apply handleTestLogs_shape.
  - apply removeConnection_consistent.
  - intros g0 g1. apply registry_consistent_ext.
Qed.

(** In a run that registers every connection under an unused id the
    index is exact. *)
Lemma reachable_fresh_consistent g :
  reachable_fresh g -> registry_consistent g.
Proof.
  apply reachable_fresh_shape.
  - apply removeConnection_consistent.
  - intros g0 g1. apply registry_consistent_ext.
  - apply constructor_consistent.
  - intros clock req g0 k g' Hfresh Hrun.
    rewrite (handleLogsSSE_id _ _ _ _ _ Hrun) in Hfresh.
    by eapply connect_consistent.
Qed.

(** **** What lasts when an id is used again *)

Lemma no_empty_entry_remove k g :
  no_empty_entry g -> no_empty_entry (removeConnection k g).
Proof.
  intros Hne. unfold no_empty_entry in *. unfold removeConnection.
  destruct (connections g !! k) as [conn|] eqn:Hconn; [|done].
  intros c s. cbn [logChannels]. rewrite foldl_unsubscribe_lookup.
  destruct (decide (c ∈ channels conn)); [|apply Hne].
  destruct (logChannels g !! c) as [s0|]; [|done]. cbn.
  intros Hs. by apply without_Some in Hs as [_ ?].
Qed.

Lemma reachable_no_empty_entry g : reachable g -> no_empty_entry g.
Proof.
  apply reachable_shape.
  - apply no_empty_entry_remove.
  - intros g0 g1 Hlc _ Hne c s. rewrite Hlc. apply Hne.
  - intros now c s Hs. cbn in Hs. by rewrite lookup_empty in Hs.
  - intros clock req g0 k g' Hrun Hne. unfold no_empty_entry in *.
    destruct (requestedChannels (query_channels req)) as [requested|e] eqn:Hq.
    2: { by rewrite (handleLogsSSE_threw _ _ _ _ Hq) in Hrun. }
    rewrite (handleLogsSSE_returned _ _ _ _ Hq) in Hrun. cbv zeta in Hrun.
    injection Hrun as <- <-.
    intros c s. cbn [logChannels]. rewrite foldl_subscribe_lookup.
    case_decide; [|apply Hne]. intros [= <-]. set_solver.
Qed.

Lemma index_complete_remove k g :
  index_complete g -> index_complete (removeConnection k g).
Proof.
  intros Hg. unfold removeConnection.
  destruct (connections g !! k) as [conn|] eqn:Hconn; [|done].
  intros c k' conn'. cbn [connections logChannels].
  rewrite lookup_delete. case_decide as Hk; [done|].
  intros Hconn' Hc. destruct (Hg c k' conn' Hconn' Hc) as (s & Hs & Hin).
  rewrite foldl_unsubscribe_lookup, Hs. cbn.
  destruct (decide (c ∈ channels conn)); [|by eauto].
  exists (s ∖ {[k]}). split; [|set_solver].
  apply without_Some. split; [done|]. set_solver.
Qed.

Lemma index_complete_ext g g' :
  logChannels g' = logChannels g ->
  (forall k, channels <$> connections g' !! k
             = channels <$> connections g !! k) ->
  index_complete g -> index_complete g'.
Proof.
  intros Hlc Hcs Hg c k conn' Hconn' Hc. rewrite Hlc.
  specialize (Hcs k). rewrite Hconn' in Hcs.
  destruct (connections g !! k) as [conn|] eqn:Hconn; [|done].
  injection Hcs as Hcs. apply (Hg c k conn); [done|]. by rewrite <- Hcs.
Qed.

Lemma index_complete_connect clock req g k g' :
  handleLogsSSE clock req g = Returned (k, g') ->
  index_complete g -> index_complete g'.
Proof.
  intros Hrun Hg.
  destruct (requestedChannels (query_channels req)) as [requested|e] eqn:Hq.
  2: { by rewrite (handleLogsSSE_threw _ _ _ _ Hq) in Hrun. }
  rewrite (handleLogsSSE_returned _ _ _ _ Hq) in Hrun. cbv zeta in Hrun.
  injection Hrun as <- <-.
  intros c k' conn'. cbn [connections logChannels].
  rewrite foldl_subscribe_lookup, lookup_insert. case_decide as Hk.
  - intros [= <-]. cbn [accepted_connection channels]. intros Hc.
    rewrite decide_True by done. eexists. split; [done|]. set_solver.
  - intros Hconn' Hc. destruct (Hg c k' conn' Hconn' Hc) as (s & Hs & Hin).
    rewrite Hs. case_decide; [|by eauto].
    eexists. split; [done|]. cbn. set_solver.
Qed.

(** A live connection is listed under each of its channels, in every
    run. *)
Lemma reachable_index_complete g : reachable g -> index_complete g.
Proof.
  apply reachable_shape.
  - apply index_complete_remove.
  - apply index_complete_ext.
  - intros now c k conn Hconn. cbn in Hconn. by rewrite lookup_empty in Hconn.
  - apply index_complete_connect.
Qed.

Lemma broadcastLog_index_complete clocks channel logData g :
  index_complete g ->
  index_complete (snd (broadcastLog clocks channel logData g)).
Proof.
  apply broadcastLog_shape.
  - apply index_complete_remove.
  - apply index_complete_ext.
Qed.

Lemma index_permitted_remove k g :
  index_permitted g -> index_permitted (removeConnection k g).
Proof.
  intros Hg. unfold removeConnection.
  destruct (connections g !! k) as [conn|] eqn:Hconn; [|done].
  intros c s. cbn [logChannels]. rewrite foldl_unsubscribe_lookup.
  case_decide; [|apply Hg].
  destruct (logChannels g !! c) as [s0|] eqn:Hs0; [|done].
  intros _. by apply (Hg c s0).
Qed.

Lemma mock_user_permitted req c :
  channel_allowed (mock_user req) c = true ->
  split ":" c !! 0%nat = Some "logs"
  /\ exists w, split ":" c !! 2%nat = Some w
               /\ (w = "workspace123" \/ w = "workspace456").
Proof.
  intros (Hlogs & w & Hw & Hin)%channel_allowed_iff.
  split; [done|]. exists w. split; [done|].
  cbn in Hin. rewrite !elem_of_cons, elem_of_nil in Hin. tauto.
Qed.

(** Every channel of the index passed the subscribe filter, in every
    run. *)
Lemma reachable_index_permitted g : reachable g -> index_permitted g.
Proof.
  apply reachable_shape.
  - apply index_permitted_remove.
  - intros g0 g1 Hlc _ Hg c s. rewrite Hlc. apply Hg.
  - intros now c s Hs. cbn in Hs. by rewrite lookup_empty in Hs.
  - intros clock req g0 k g' Hrun Hg.
    destruct (requestedChannels (query_channels req)) as [requested|e] eqn:Hq.
    2: { by rewrite (handleLogsSSE_threw _ _ _ _ Hq) in Hrun. }
    rewrite (handleLogsSSE_returned _ _ _ _ Hq) in Hrun. cbv zeta in Hrun.
    injection Hrun as <- <-.
    intros c s. cbn [logChannels]. rewrite foldl_subscribe_lookup.
    case_decide as Hc; [|apply Hg]. intros _.
    apply elem_of_getUserLogChannels in Hc as [_ Hc].
    by apply (mock_user_permitted req).
Qed.

Lemma one_subscriber_fresh : reachable_fresh Sample.one_subscriber.
Proof.
  apply (fresh_connect Sample.clock (Sample.subscribe_to Sample.channel)
           (constructor 0) Sample.subscriber); [apply fresh_init|..];
    vm_compute; reflexivity.
Qed.

Lemma reused_reachable : reachable Scenario.reused.
Proof.
  apply (reachable_step Sample.one_subscriber).
  - apply fresh_reachable, one_subscriber_fresh.
  - apply (step_connect Sample.clock
             (Sample.subscribe_to Scenario.other_channel)
             Sample.one_subscriber Sample.subscriber).
    vm_compute. reflexivity.
Qed.

(** C6, as stated, fails.  Nothing keeps a stream request from drawing a
    connection id that is in use: [connections.set] then overwrites the
    connection, and the index goes on listing the id under the channel of
    the connection that was overwritten.  After the id is removed it is
    still listed there. *)
Lemma reused_id_stale_entry :
  reachable Scenario.reused
  /\ ~ index_exact Scenario.reused
  /\ channels <$> connections Scenario.reused !! Sample.subscriber
     = Some [Scenario.other_channel]
  /\ logChannels Scenario.reused !! Sample.channel
     = Some {[Sample.subscriber]}
  /\ ~ unregistered Sample.subscriber
         (removeConnection Sample.subscriber Scenario.reused).
Proof.
  assert (Hindex : logChannels Scenario.reused !! Sample.channel
                   = Some {[Sample.subscriber]}).
  { vm_compute. reflexivity. }
  assert (Hconn : channels <$> connections Scenario.reused !! Sample.subscriber
                  = Some [Scenario.other_channel]).
  { vm_compute. reflexivity. }
  split; [apply reused_reachable|]. split; [|split; [done|split; [done|]]].
  - intros Hexact.
    destruct (proj1 (Hexact Sample.channel Sample.subscriber))
      as (conn & Hc & Hin).
    { eexists. split; [exact Hindex|]. set_solver. }
    rewrite Hc in Hconn. injection Hconn as Hconn. rewrite Hconn in Hin.
    apply list_elem_of_singleton in Hin. vm_compute in Hin. discriminate Hin.
  - intros [_ Hnowhere].
    apply (Hnowhere Sample.channel {[Sample.subscriber]});
      [vm_compute; reflexivity|set_solver].
Qed.

(** C6, amended. In every state of a run that registers each stream
    request under a connection id not in use, the reverse index lists
    connection [k] under channel [c] exactly when [k] is a live connection
    whose [channels] has [c], no entry of the index is an empty set, and
    after [removeConnection k] the connection [k] is in neither the
    connection map nor any entry of the index.  In every state of every
    run, a connection is listed under each of its channels, no entry of the
    index is an empty set, and after [removeConnection k] the connection
    map has no [k]. *)
Theorem registry_invariant (g : gateway) :
  (reachable_fresh g ->
   index_exact g
   /\ no_empty_entry g
   /\ forall k, unregistered k (removeConnection k g)
                /\ registry_consistent (removeConnection k g))
  /\ (reachable g ->
      index_complete g
      /\ no_empty_entry g
      /\ forall k, connections (removeConnection k g) !! k = None
                   /\ index_complete (removeConnection k g)
                   /\ no_empty_entry (removeConnection k g)).
Proof.
  split.
  - intros Hg%reachable_fresh_consistent.
    split; [apply Hg|]. split; [apply Hg|].
    intros k. split.
    + by apply removeConnection_unregistered.
    + by apply removeConnection_consistent.
  - intros Hg.
    pose proof (reachable_index_complete g Hg) as Hcomplete.
    pose proof (reachable_no_empty_entry g Hg) as Hne.
    split; [done|]. split; [done|].
    intros k. split; [|split].
    + unfold removeConnection. destruct (connections g !! k) eqn:Hk; [|done].
      cbn. apply lookup_delete_eq.
    + by apply index_complete_remove.
    + by apply no_empty_entry_remove.
Qed.

(** The state with one subscriber, after that subscriber is removed, and
    after its id is drawn again. *)
Lemma registry_invariant_witness :
  reachable_fresh Sample.one_subscriber
  /\ index_exact Sample.one_subscriber
  /\ no_empty_entry Sample.one_subscriber
  /\ unregistered Sample.subscriber
       (removeConnection Sample.subscriber Sample.one_subscriber)
  /\ reachable Scenario.reused
  /\ index_complete Scenario.reused.
Proof.
  pose proof one_subscriber_fresh as H.
  pose proof reused_reachable as H'.
  split; [exact H|].
  destruct (proj1 (registry_invariant Sample.one_subscriber) H)
    as (H1 & H2 & H3).
  split; [exact H1|]. split; [exact H2|].
  split; [exact (proj1 (H3 Sample.subscriber))|]. split; [exact H'|].
  exact (proj1 (proj2 (registry_invariant Scenario.reused) H')).
Defined.

(** *** Fan-out *)

Lemma deliver_lookup clocks channel logData n g k k' :
  connections (snd (deliver clocks channel logData (n, g) k)) !! k'
  = if decide (k = k')
    then connections g !! k ≫= delivered_to clocks channel logData k
    else connections g !! k'.
Proof.
  unfold deliver, delivered_to.
  destruct (connections g !! k) as [conn|] eqn:Hk.
  - destruct (write_throws (clocks k)); cbn [snd].
    + unfold removeConnection. rewrite Hk. cbn [connections].
      rewrite lookup_delete. by case_decide.
    + cbn [connections]. rewrite lookup_alter, Hk. by case_decide.
  - cbn [snd]. case_decide; [by subst k'|done].
Qed.

Lemma deliver_count clocks channel logData n g k :
  fst (deliver clocks channel logData (n, g) k)
  = n + (if receives clocks g k then 1 else 0).
Proof.
  unfold deliver, receives.
  destruct (connections g !! k) as [conn|] eqn:Hk.
  - rewrite bool_decide_eq_true_2 by eauto.
    destruct (write_throws (clocks k)); cbn; lia.
  - rewrite bool_decide_eq_false_2 by (by intros [? [=]]). cbn. lia.
Qed.

Lemma filter_receives_agree clocks g g' (l : list string) :
  (forall k, k ∈ l -> connections g' !! k = connections g !! k) ->
  filter (fun k => receives clocks g' k = true) l
  = filter (fun k => receives clocks g k = true) l.
Proof.
  induction l as [|a l IH]; intros Hagree; [done|].
  rewrite !filter_cons.
  assert (Ha : receives clocks g' a = receives clocks g a).
  { unfold receives. rewrite Hagree; [done|apply list_elem_of_here]. }
  rewrite Ha, IH; [done|].
  intros k Hk. by apply Hagree, list_elem_of_further.
Qed.

(** The loop of [broadcastLog] over distinct connection ids: each visited
    connection is written to (or removed when its write throws), the others
    are untouched, and [delivered] grows by the number of writes. *)
Lemma foldl_deliver_spec clocks channel logData (l : list string) :
  NoDup l ->
  forall n g,
    (forall k,
        connections
          (snd (foldl (deliver clocks channel logData) (n, g) l)) !! k
        = if decide (k ∈ l)
          then connections g !! k ≫= delivered_to clocks channel logData k
          else connections g !! k)
    /\ fst (foldl (deliver clocks channel logData) (n, g) l)
       = n + Z.of_nat
               (length (filter (fun k => receives clocks g k = true) l)).
Proof.
  induction 1 as [|a l Ha Hl IH]; intros n g.
  { split; [done|]. cbn. lia. }
  cbn [foldl].
  pose proof (deliver_count clocks channel logData n g a) as Hn.
  pose proof (deliver_lookup clocks channel logData n g a) as Hg.
  destruct (deliver clocks channel logData (n, g) a) as [n1 g1].
  cbn [fst snd] in Hn, Hg.
  destruct (IH n1 g1) as [IHg IHn]. split.
  - intros k. rewrite IHg.
    destruct (decide (k ∈ l)) as [Hin|Hnot].
    + assert (a <> k) by (by intros ->).
      rewrite Hg, decide_False by done.
      by rewrite (decide_True (P := k ∈ a :: l))
        by (by apply list_elem_of_further).
    + rewrite Hg. destruct (decide (a = k)) as [<-|Hne].
      * by rewrite (decide_True (P := a ∈ a :: l)) by apply list_elem_of_here.
      * rewrite (decide_False (P := k ∈ a :: l)); [done|].
        intros [->|?]%elem_of_cons; done.
  - rewrite IHn, Hn.
    rewrite (filter_receives_agree clocks g g1 l).
    2: { intros k Hk. rewrite Hg. rewrite decide_False; [done|].
         by intros <-. }
    rewrite filter_cons. destruct (receives clocks g a) eqn:Hr.
    + rewrite decide_True by done. cbn [length]. lia.
    + rewrite decide_False by (by intros [=]). lia.
Qed.

Lemma broadcastLog_spec clocks channel logData g :
  let subscribers := default ∅ (logChannels g !! channel) in
  (forall k,
      connections (snd (broadcastLog clocks channel logData g)) !! k
      = if decide (k ∈ subscribers)
        then connections g !! k ≫= delivered_to clocks channel logData k
        else connections g !! k)
  /\ fst (broadcastLog clocks channel logData g)
     = Z.of_nat
         (length (filter (fun k => receives clocks g k = true)
                    (elements subscribers))).
Proof.
  intros subscribers. unfold broadcastLog. fold subscribers.
  destruct (foldl_deliver_spec clocks channel logData (elements subscribers)
              (NoDup_elements subscribers) 0 g) as [Hg Hn].
  split; [|by rewrite Hn].
  intros k. rewrite Hg.
  destruct (decide (k ∈ elements subscribers)) as [Hin|Hnot],
    (decide (k ∈ subscribers)) as [Hin'|Hnot']; try done.
  - by apply elem_of_elements in Hin.
  - by apply elem_of_elements in Hin'.
Qed.

Lemma stringify_num (z : Z) :
  stringify (num z) = Some (number_to_string (of_Z z)).
Proof. by destruct z. Qed.

Lemma log_fields_stringify channel logData clock t :
  stringify logData = Some t ->
  stringify (logMessage channel logData clock)
  = Some ("{" ++ JS.join ","
                   [ quote "channel" ++ ":" ++ quote channel;
                     quote "data" ++ ":" ++ t;
                     quote "timestamp" ++ ":"
                       ++ number_to_string (of_Z (write_now clock));
                     quote "id" ++ ":" ++ quote (log_id clock) ]
              ++ "}")
  /\ serialized_keys (logMessage channel logData clock)
     = Spec.data_record_fields.
Proof.
  intros Ht. unfold logMessage, log_fields, serialized_keys.
  cbn [stringify omap list_omap fst snd].
  by rewrite Ht, stringify_num.
Qed.

Lemma log_fields_stringify_undefined channel logData clock :
  stringify logData = None ->
  stringify (logMessage channel logData clock)
  = Some ("{" ++ JS.join ","
                   [ quote "channel" ++ ":" ++ quote channel;
                     quote "timestamp" ++ ":"
                       ++ number_to_string (of_Z (write_now clock));
                     quote "id" ++ ":" ++ quote (log_id clock) ]
              ++ "}")
  /\ serialized_keys (logMessage channel logData clock)
     = ["channel"; "timestamp"; "id"].
Proof.
  intros Ht. unfold logMessage, log_fields, serialized_keys.
  cbn [stringify omap list_omap fst snd].
  by rewrite Ht, stringify_num.
Qed.

(** C5, as stated, fails: a publish whose body has no [logData] is accepted,
    and the record written to the subscriber has a JSON object with the
    three fields [channel], [timestamp] and [id] and no [data] field. *)
Lemma record_without_data :
  fst (handleLogsPublish Sample.clocks 0 (Sample.etl_publish VUndef)
         Sample.one_subscriber)
  = Returned
      {| reply_status := 200;
         reply_body := VObj [ ("success", VBool true);
                              ("channel", VStr Sample.channel);
                              ("delivered", num 1);
                              ("timestamp", num 0) ] |}
  /\ (fun conn => written (res conn))
     <$> (connections
            (snd (handleLogsPublish Sample.clocks 0
                    (Sample.etl_publish VUndef) Sample.one_subscriber))
          !! Sample.subscriber)
     = Some (written (res Sample.served)
             ++ [log_record Sample.channel VUndef
                   (Sample.clocks Sample.subscriber)])%list
  /\ stringify (logMessage Sample.channel VUndef
                  (Sample.clocks Sample.subscriber))
     = Some ("{" ++ quote "channel" ++ ":" ++ quote "logs:etl:workspace123"
                 ++ "," ++ quote "timestamp" ++ ":1700000000500"
                 ++ "," ++ quote "id" ++ ":"
                 ++ quote "log-1700000000500-p0o9i8u7y" ++ "}")
  /\ serialized_keys (logMessage Sample.channel VUndef
                        (Sample.clocks Sample.subscriber))
     = ["channel"; "timestamp"; "id"]
  /\ serialized_keys (logMessage Sample.channel VUndef
                        (Sample.clocks Sample.subscriber))
     <> Spec.data_record_fields.
Proof.
  split; [by vm_compute|]. split; [by vm_compute|].
  split; [by vm_compute|]. split; [by vm_compute|].
  vm_compute. discriminate.
Qed.

(** C5, amended. Whatever [broadcastLog] leaves of a connection is the
    connection as it was, or that connection with one chunk appended, of the
    form [id: <id>], line feed, [data: <json>], blank line, where the
    object serialized has [channel], [data] the publish's [logData] itself,
    [timestamp], and [id] equal to the [id:] value.  When [logData]
    serializes (it is not [undefined]) the JSON object has exactly the fields
    [channel], [data], [timestamp], [id], with the text [JSON.stringify]
    gives of [logData] spliced in unchanged; when the body has no [logData]
    the [data] field is left out. *)
Theorem data_record_format clocks channel logData g k conn' :
  connections (snd (broadcastLog clocks channel logData g)) !! k = Some conn' ->
  exists conn,
    connections g !! k = Some conn
    /\ (conn' = conn
        \/ written (res conn')
           = (written (res conn)
              ++ [("id: " ++ log_id (clocks k) ++ nl ++ "data: "
                   ++ stringify_text
                        (VObj (log_fields channel logData (clocks k)))
                   ++ nl ++ nl)%string])%list
           /\ get (log_fields channel logData (clocks k)) "channel"
              = VStr channel
           /\ get (log_fields channel logData (clocks k)) "id"
              = VStr (log_id (clocks k))
           /\ get (log_fields channel logData (clocks k)) "data" = logData
           /\ (forall t,
                  stringify logData = Some t ->
                  stringify (VObj (log_fields channel logData (clocks k)))
                  = Some ("{" ++ JS.join ","
                            [ quote "channel" ++ ":" ++ quote channel;
                              quote "data" ++ ":" ++ t;
                              quote "timestamp" ++ ":"
                                ++ number_to_string
                                     (of_Z (write_now (clocks k)));
                              quote "id" ++ ":" ++ quote (log_id (clocks k)) ]
                            ++ "}")
                  /\ serialized_keys
                       (VObj (log_fields channel logData (clocks k)))
                     = Spec.data_record_fields)
           /\ (stringify logData = None ->
               serialized_keys (VObj (log_fields channel logData (clocks k)))
               = ["channel"; "timestamp"; "id"])).
Proof.
  intros Hafter.
  destruct (broadcastLog_spec clocks channel logData g) as [Hg _].
  rewrite Hg in Hafter.
  destruct (decide (k ∈ default ∅ (logChannels g !! channel))); [|by eauto].
  destruct (connections g !! k) as [conn|]; [|done].
  exists conn. split; [done|]. right.
  cbn in Hafter. unfold delivered_to in Hafter.
  destruct (write_throws (clocks k)); [done|]. injection Hafter as <-.
  split; [reflexivity|]. split; [reflexivity|]. split; [reflexivity|].
  split; [reflexivity|]. split.
  - intros t Ht. by apply (log_fields_stringify channel logData (clocks k)).
  - intros Ht.
    by apply (log_fields_stringify_undefined channel logData (clocks k)).
Qed.

(** The record written to the one subscriber of [Sample.channel]. *)
Lemma data_record_format_witness :
  connections
    (snd (broadcastLog Sample.clocks Sample.channel Sample.info
            Sample.one_subscriber))
  !! Sample.subscriber
  = Some (sent_to (log_record Sample.channel Sample.info
                     (Sample.clocks Sample.subscriber))
            Sample.served)
  /\ exists conn,
       connections Sample.one_subscriber !! Sample.subscriber = Some conn
       /\ written (res (sent_to (log_record Sample.channel Sample.info
                                   (Sample.clocks Sample.subscriber))
                          Sample.served))
          = (written (res conn)
             ++ [log_record Sample.channel Sample.info
                   (Sample.clocks Sample.subscriber)])%list.
Proof.
  assert (H : connections
                (snd (broadcastLog Sample.clocks Sample.channel Sample.info
                        Sample.one_subscriber))
              !! Sample.subscriber
              = Some (sent_to (log_record Sample.channel Sample.info
                                 (Sample.clocks Sample.subscriber))
                        Sample.served)) by (vm_compute; reflexivity).
  split; [exact H|].
  destruct (data_record_format Sample.clocks Sample.channel Sample.info
              Sample.one_subscriber Sample.subscriber _ H)
    as (conn & Hconn & [Hsame|(Hw & _)]).
  - exfalso. subst conn.
    apply (f_equal (fmap logsSent)) in Hconn. vm_compute in Hconn.
    discriminate Hconn.
  - exists conn. split; [exact Hconn|]. exact Hw.
Defined.

(** C8, as stated, fails: there is no send queue and no capacity.  After
    [Q] = 256 publishes that the subscriber has not read, its stream holds
    the 256 records, and the next envelope is written to it and counted in
    [delivered]. *)
Lemma full_stream_still_delivered :
  logsSent
    <$> (connections (Sample.published 256 Sample.one_subscriber)
         !! Sample.subscriber)
  = Some Spec.Q
  /\ (fun conn => length (written (res conn)))
     <$> (connections (Sample.published 256 Sample.one_subscriber)
          !! Sample.subscriber)
     = Some 257%nat
  /\ fst (broadcastLog Sample.clocks Sample.channel Sample.info
            (Sample.published 256 Sample.one_subscriber))
     = 1
  /\ (fun conn => length (written (res conn)))
     <$> (connections
            (snd (broadcastLog Sample.clocks Sample.channel Sample.info
                    (Sample.published 256 Sample.one_subscriber)))
          !! Sample.subscriber)
     = Some 258%nat.
Proof. repeat split; by vm_compute. Qed.

(** C8, amended. A connection has no send queue: [broadcastLog] writes the
    envelope straight to the response of every subscriber of the channel
    that has a live connection, whatever was written to it before, and
    counts it in [delivered].  The only envelopes left out of [delivered]
    are those whose write throws; that connection is removed.  The
    [delivered] of the answer to an accepted publish whose channel name was
    built is the number of subscribers written to. *)
Theorem delivered_counts_every_write clocks channel payload g :
  fst (broadcastLog clocks channel payload g)
  = Z.of_nat
      (length (filter (fun k => receives clocks g k = true)
                 (elements (default ∅ (logChannels g !! channel)))))
  /\ (forall k conn,
         k ∈ default ∅ (logChannels g !! channel) ->
         connections g !! k = Some conn ->
         write_throws (clocks k) = false ->
         receives clocks g k = true
         /\ connections (snd (broadcastLog clocks channel payload g)) !! k
            = Some (sent_to (log_record channel payload (clocks k)) conn))
  /\ (forall k,
         k ∈ default ∅ (logChannels g !! channel) ->
         write_throws (clocks k) = true ->
         receives clocks g k = false
         /\ connections (snd (broadcastLog clocks channel payload g)) !! k
            = None)
  /\ (forall now req c,
         validateLogPublisher (x_service_token req) (service (body req))
         = true ->
         publish_channel (body req) = Returned c ->
         fst (handleLogsPublish clocks now req g)
         = Returned
             {| reply_status := 200;
                reply_body :=
                  VObj [ ("success", VBool true);
                         ("channel", VStr c);
                         ("delivered",
                          num (fst (broadcastLog clocks c
                                      (logData (body req)) g)));
                         ("timestamp", num now) ] |}).
Proof.
  destruct (broadcastLog_spec clocks channel payload g) as [Hg Hn].
  split; [exact Hn|]. split; [|split].
  - intros k conn Hk Hconn Hw. split.
    + unfold receives. rewrite Hconn, Hw.
      by rewrite bool_decide_eq_true_2 by eauto.
    + rewrite Hg, decide_True, Hconn by done. cbn.
      unfold delivered_to. by rewrite Hw.
  - intros k Hk Hw. split.
    + unfold receives. rewrite Hw. apply andb_false_r.
    + rewrite Hg, decide_True by done.
      destruct (connections g !! k); [|done]. cbn.
      unfold delivered_to. by rewrite Hw.
  - intros now req c Hv Hc. by rewrite (publish_accepted _ _ _ _ c).
Qed.

(** *** Duplicate channel names *)

(** C7, as stated, fails: a query naming a channel twice yields a connection
    whose [channels] lists it twice and whose confirmation lists it twice;
    naming it once yields one occurrence.  And a request that names the
    channel twice by giving the [channels] parameter twice is not served at
    all: the handler throws. *)
Lemma duplicate_channels_kept :
  channels
    <$> (connections
           (Sample.after
              (handleLogsSSE Sample.clock
                 (Sample.subscribe_to
                    "logs:etl:workspace123,logs:etl:workspace123")
                 (constructor 0)))
         !! Sample.subscriber)
  = Some ["logs:etl:workspace123"; "logs:etl:workspace123"]
  /\ channels
       <$> (connections
              (Sample.after
                 (handleLogsSSE Sample.clock
                    (Sample.subscribe_to "logs:etl:workspace123")
                    (constructor 0)))
            !! Sample.subscriber)
     = Some ["logs:etl:workspace123"]
  /\ hello_record ["logs:etl:workspace123"; "logs:etl:workspace123"]
       "user123" Sample.subscriber 1700000000001
     <> hello_record ["logs:etl:workspace123"]
          "user123" Sample.subscriber 1700000000001
  /\ (fun conn => written (res conn))
     <$> (connections
            (Sample.after
               (handleLogsSSE Sample.clock
                  (Sample.subscribe_to
                     "logs:etl:workspace123,logs:etl:workspace123")
                  (constructor 0)))
          !! Sample.subscriber)
     = Some [hello_record ["logs:etl:workspace123"; "logs:etl:workspace123"]
               "user123" Sample.subscriber 1700000000001]
  /\ handleLogsSSE Sample.clock Scenario.repeated_parameter (constructor 0)
     = Threw "TypeError: req.query.channels.split is not a function".
Proof.
  split; [by vm_compute|]. split; [by vm_compute|].
  split; [|split; by vm_compute].
  intros H. apply (f_equal String.length) in H. vm_compute in H.
  discriminate H.
Qed.

(** C7, amended. Two requests whose [channels] parameter is missing or
    given once, and that name the same channels, however often each, give
    the same reverse index: the set kept for a channel holds the connection
    id once.  The connection's [channels] array and the [channels] list of
    the confirmation are not deduplicated: they keep every allowed
    occurrence in request order, and agree between the two requests as sets
    only.  A request that gives the [channels] parameter more than once is
    not served: the handler throws, and no entry is made. *)
Theorem duplicate_channels_same_index clock uid g :
  (forall q1 q2 l1 l2,
      requestedChannels q1 = Returned l1 ->
      requestedChannels q2 = Returned l2 ->
      (forall c, c ∈ l1 <-> c ∈ l2) ->
      let u := mock_user {| x_user_id := uid; query_channels := q1 |} in
      exists k g1 g2 conn1 conn2,
        handleLogsSSE clock {| x_user_id := uid; query_channels := q1 |} g
        = Returned (k, g1)
        /\ handleLogsSSE clock {| x_user_id := uid; query_channels := q2 |} g
           = Returned (k, g2)
        /\ logChannels g1 = logChannels g2
        /\ connections g1 !! k = Some conn1
        /\ connections g2 !! k = Some conn2
        /\ channels conn1 = filter (fun c => channel_allowed u c = true) l1
        /\ channels conn2 = filter (fun c => channel_allowed u c = true) l2
        /\ (forall c, c ∈ channels conn1 <-> c ∈ channels conn2)
        /\ written (res conn1)
           = [hello_record (channels conn1) (userId conn1) k
                (sse_now_hello clock)]
        /\ written (res conn2)
           = [hello_record (channels conn2) (userId conn2) k
                (sse_now_hello clock)]
        /\ get (hello_fields (channels conn1) (userId conn1) k
                  (sse_now_hello clock)) "channels"
           = VArr (map VStr (filter (fun c => channel_allowed u c = true) l1))
        /\ get (hello_fields (channels conn2) (userId conn2) k
                  (sse_now_hello clock)) "channels"
           = VArr (map VStr (filter (fun c => channel_allowed u c = true) l2))
        /\ (forall k', k' <> k ->
                       connections g1 !! k' = connections g2 !! k'))
  /\ (forall l,
        handleLogsSSE clock {| x_user_id := uid; query_channels := QArray l |}
          g
        = Threw "TypeError: req.query.channels.split is not a function").
Proof.
  split; [|done].
  intros q1 q2 l1 l2 Hq1 Hq2 Hsame.
  set (req1 := {| x_user_id := uid; query_channels := q1 |}).
  set (req2 := {| x_user_id := uid; query_channels := q2 |}).
  intros u.
  assert (Hallowed : forall c, c ∈ getUserLogChannels u l1
                               <-> c ∈ getUserLogChannels u l2).
  { intros c. rewrite !elem_of_getUserLogChannels. by rewrite Hsame. }
  exists (new_connection_id (id u) clock). eexists _, _, _, _.
  split; [by apply (handleLogsSSE_returned clock req1 g l1)|].
  split; [by apply (handleLogsSSE_returned clock req2 g l2)|].
  cbn [connections logChannels]. split.
  - apply map_eq. intros c. rewrite !foldl_subscribe_lookup.
    change (mock_user req2) with u. change (mock_user req1) with u.
    destruct (decide (c ∈ getUserLogChannels u l1)) as [H1|H1],
      (decide (c ∈ getUserLogChannels u l2)) as [H2|H2]; try done.
    + destruct H2. by apply Hallowed.
    + destruct H1. by apply Hallowed.
  - split; [apply lookup_insert_eq|]. split; [apply lookup_insert_eq|].
    cbn [accepted_connection channels].
    split; [apply getUserLogChannels_filter|].
    split; [apply (getUserLogChannels_filter u l2)|].
    split; [exact Hallowed|]. split; [reflexivity|]. split; [reflexivity|].
    split; [by rewrite <- getUserLogChannels_filter|].
    split; [by rewrite <- (getUserLogChannels_filter u l2)|].
    intros k' Hk'. by rewrite !lookup_insert_ne.
Qed.

(** Naming [logs:etl:workspace123] twice or once: the same index. *)
Lemma duplicate_channels_same_index_witness :
  requestedChannels (QString "logs:etl:workspace123,logs:etl:workspace123")
  = Returned ["logs:etl:workspace123"; "logs:etl:workspace123"]
  /\ requestedChannels (QString "logs:etl:workspace123")
     = Returned ["logs:etl:workspace123"]
  /\ (forall c, c ∈ ["logs:etl:workspace123"; "logs:etl:workspace123"]
                <-> c ∈ ["logs:etl:workspace123"])
  /\ logChannels
       (Sample.after
          (handleLogsSSE Sample.clock
             (Sample.subscribe_to
                "logs:etl:workspace123,logs:etl:workspace123")
             (constructor 0)))
     = logChannels
         (Sample.after
            (handleLogsSSE Sample.clock
               (Sample.subscribe_to "logs:etl:workspace123")
               (constructor 0))).
Proof.
  assert (H3 : forall c : string,
             c ∈ ["logs:etl:workspace123"; "logs:etl:workspace123"]
             <-> c ∈ ["logs:etl:workspace123"]).
  { intros c. rewrite !elem_of_cons. tauto. }
  split; [reflexivity|]. split; [reflexivity|]. split; [exact H3|].
  destruct (proj1 (duplicate_channels_same_index Sample.clock None
                     (constructor 0))
              (QString "logs:etl:workspace123,logs:etl:workspace123")
              (QString "logs:etl:workspace123") _ _
              eq_refl eq_refl H3)
    as (k & g1 & g2 & c1 & c2 & E1 & E2 & Hsame & _).
  unfold Sample.subscribe_to. rewrite E1, E2. exact Hsame.
Defined.

(** *** Induction over the stored connections *)

(** Induction over runs for a property of the stored connections: it holds
    of a connection as [handleLogsSSE] stores it, and is kept by a heartbeat
    and by a delivered record. *)
Lemma reachable_connections_ind (P : string -> connection -> Prop) :
  (forall clock req requested,
      requestedChannels (query_channels req) = Returned requested ->
      P (new_connection_id (id (mock_user req)) clock)
        (accepted_connection clock (mock_user req)
           (getUserLogChannels (mock_user req) requested))) ->
  (forall k conn, P k conn -> P k (write_to ping conn)) ->
  (forall k conn channel data clock,
      P k conn -> P k (sent_to (log_record channel data clock) conn)) ->
  forall g, reachable g ->
  forall k conn, connections g !! k = Some conn -> P k conn.
Proof.
  intros Hnew Hping Hsent.
  assert (Hbroadcast : forall clocks channel data g,
             (forall k conn, connections g !! k = Some conn -> P k conn) ->
             forall k conn,
               connections (snd (broadcastLog clocks channel data g)) !! k
               = Some conn -> P k conn).
  { intros clocks channel data g Hg k conn'.
    destruct (broadcastLog_spec clocks channel data g) as [Hspec _].
    rewrite Hspec. case_decide; [|apply Hg].
    destruct (connections g !! k) as [conn|] eqn:Hk; [|done]. cbn.
    unfold delivered_to. destruct (write_throws (clocks k)); [done|].
    intros [= <-]. by apply Hsent, Hg. }
  induction 1 as [now|g g' _ IH Hstep].
  { intros k conn. cbn. by rewrite lookup_empty. }
  destruct Hstep as [clock req g k0 g' Hrun|g g' Hquiet].
  - destruct (requestedChannels (query_channels req)) as [requested|e] eqn:Hq.
    2: { by rewrite (handleLogsSSE_threw _ _ _ _ Hq) in Hrun. }
    rewrite (handleLogsSSE_returned _ _ _ _ Hq) in Hrun. cbv zeta in Hrun.
    injection Hrun as <- <-. intros k conn. cbn [connections].
    rewrite lookup_insert. case_decide as Hk.
    + intros [= <-]. rewrite <- Hk. by apply Hnew.
    + apply IH.
  - destruct Hquiet as [k0 g|k0 g|clocks now req g|clocks now sample b g].
    + intros k conn. unfold removeConnection.
      destruct (connections g !! k0); [|apply IH].
      cbn [connections]. rewrite lookup_delete. case_decide; [done|apply IH].
    + intros k conn. unfold heartbeat.
      destruct (connections g !! k0) eqn:Hk0; [|apply IH].
      cbn [connections]. rewrite lookup_alter. case_decide; [|apply IH].
      subst k. rewrite Hk0. intros [= <-]. by apply Hping, IH.
    + destruct (publish_state clocks now req g) as [->|(c & _ & ->)];
        [done|].
      by apply Hbroadcast.
    + destruct (test_state clocks now sample b g) as [->|(c & data & ->)];
        [done|].
      by apply Hbroadcast.
Qed.

(** *** The confirmation stays first on the stream *)

Lemma reachable_greeted g : reachable g -> all_greeted g.
Proof.
  intros Hg k conn Hconn. revert g Hg k conn Hconn.
  apply (reachable_connections_ind (fun _ conn => greeted conn)).
  - intros clock req requested _. split; [done|]. by eexists _, [].
  - intros k conn [Hstatus (now & rest & Hw)]. split; [done|].
    exists now, (rest ++ [ping])%list. cbn. by rewrite Hw.
  - intros k conn channel data clock [Hstatus (now & rest & Hw)].
    split; [done|].
    exists now, (rest ++ [log_record channel data clock])%list. cbn.
    by rewrite Hw.
Qed.

(** C4. A stream request that is served (its [channels] query is missing or
    a string) gets status 200 and the SSE headers, and the first and only
    chunk written so far is [data: <json>] followed by a blank line, with no
    [id:] line, where the JSON object has [type] "connection", [status]
    "connected" and [channels] the allowed channels (the connection's
    [channels]), also when there are none.  In every reachable state the
    stream of every live connection still has status 200 and that record as
    its first chunk. *)
Theorem handshake_record clock req g requested :
  requestedChannels (query_channels req) = Returned requested ->
  (exists k g' conn message json,
      handleLogsSSE clock req g = Returned (k, g')
      /\ connections g' !! k = Some conn
      /\ channels conn = getUserLogChannels (mock_user req) requested
      /\ statusCode (res conn) = 200
      /\ headers (res conn) = sse_headers
      /\ written (res conn) = ["data: " ++ json ++ nl ++ nl]
      /\ stringify (VObj message) = Some json
      /\ get message "type" = VStr "connection"
      /\ get message "status" = VStr "connected"
      /\ get message "channels" = VArr (map VStr (channels conn)))
  /\ (getUserLogChannels (mock_user req) requested = [] ->
      exists k g' conn,
        handleLogsSSE clock req g = Returned (k, g')
        /\ connections g' !! k = Some conn
        /\ statusCode (res conn) = 200
        /\ get (hello_fields (channels conn) (userId conn) k
                  (sse_now_hello clock)) "channels"
           = VArr []
        /\ written (res conn)
           = [hello_record [] (userId conn) k (sse_now_hello clock)])
  /\ (forall g0 k0 conn0,
         reachable g0 -> connections g0 !! k0 = Some conn0 -> greeted conn0).
Proof.
  intros Hq. split; [|split].
  3: { intros g0 k0 conn0 Hg0. by apply reachable_greeted. }
  2: { intros Hnone. eexists _, _, _.
       split; [by apply handleLogsSSE_returned|].
       cbn [connections]. split; [apply lookup_insert_eq|].
       cbn [accepted_connection res statusCode written channels userId].
       rewrite Hnone. repeat split; reflexivity. }
  set (u := mock_user req). set (k := new_connection_id (id u) clock).
  set (allowed := getUserLogChannels u requested).
  exists k. eexists _, _.
  exists (hello_fields allowed (id u) k (sse_now_hello clock)).
  exists (stringify_text (hello_message allowed (id u) k (sse_now_hello clock))).
  split; [by apply handleLogsSSE_returned|].
  cbn [connections]. split; [apply lookup_insert_eq|].
  cbn [accepted_connection res statusCode headers written channels].
  repeat split; reflexivity.
Qed.

(** A request for a channel of a foreign workspace: served, with an empty
    [channels] list in the confirmation. *)
Lemma handshake_record_witness :
  requestedChannels (query_channels (Sample.subscribe_to "logs:etl:elsewhere"))
  = Returned ["logs:etl:elsewhere"]
  /\ exists k g' conn,
       handleLogsSSE Sample.clock (Sample.subscribe_to "logs:etl:elsewhere")
         (constructor 0)
       = Returned (k, g')
       /\ connections g' !! k = Some conn
       /\ statusCode (res conn) = 200
       /\ get (hello_fields (channels conn) (userId conn) k
                 (sse_now_hello Sample.clock)) "channels"
          = VArr []
       /\ written (res conn)
          = [hello_record [] (userId conn) k (sse_now_hello Sample.clock)].
Proof.
  split; [reflexivity|].
  apply (handshake_record Sample.clock
           (Sample.subscribe_to "logs:etl:elsewhere") (constructor 0)
           ["logs:etl:elsewhere"]); reflexivity.
Defined.

(** *** Further properties: the token validator *)

Lemma strict_eq_string_iff (s : string) (v : val) :
  strict_eq (VStr s) v = true <-> v = VStr s.
Proof.
  unfold strict_eq.
  destruct v as [| |b|n|s'|l|fs|name]; cbn;
    try (split; intros H; discriminate H).
  rewrite bool_decide_eq_true. split; [by intros ->|by intros [= ->]].
Qed.

Lemma get_not_string (v : val) (t s : string) :
  t ∉ Spec.recognized_tokens -> get (validTokens v) t <> VStr s.
Proof.
  intros Hnot. unfold get. rewrite get_own_unlisted by done.
  by case_bool_decide.
Qed.

Lemma recognized_cases (t : string) :
  t ∈ Spec.recognized_tokens
  <-> t = "l5-etl-token" \/ t = "faas-token" \/ t = "function-token"
      \/ t = "service-token".
Proof.
  unfold Spec.recognized_tokens. rewrite !elem_of_cons, elem_of_nil. tauto.
Qed.

(** X1. Which publishers the validator accepts.  Each of the three fixed
    tokens is accepted for its own service name and for no other value of
    [service], of any JSON type or missing; and for a string [s] as the
    service, a token header is accepted exactly when it is one of these
    three with its own service, or is [service-token]. *)
Theorem validator_accepts_exactly (token : option string) (s : string) :
  (forall v, validateLogPublisher (Some "l5-etl-token") v = true
             <-> v = VStr "etl")
  /\ (forall v, validateLogPublisher (Some "faas-token") v = true
                <-> v = VStr "faas")
  /\ (forall v, validateLogPublisher (Some "function-token") v = true
                <-> v = VStr "function")
  /\ (validateLogPublisher token (VStr s) = true
      <-> token = Some "l5-etl-token" /\ s = "etl"
          \/ token = Some "faas-token" /\ s = "faas"
          \/ token = Some "function-token" /\ s = "function"
          \/ token = Some "service-token").
Proof.
  split; [|split; [|split]].
  - intros v. apply (strict_eq_string_iff "etl").
  - intros v. apply (strict_eq_string_iff "faas").
  - intros v. apply (strict_eq_string_iff "function").
  - unfold validateLogPublisher.
    destruct (decide (property_key token ∈ Spec.recognized_tokens))
      as [Hin|Hnot].
    + destruct token as [t|]; cbn [property_key] in *.
      2: { exfalso. revert Hin. by_evaluation. }
      apply recognized_cases in Hin as [-> | [-> | [-> | ->]]].
      * replace (get (validTokens (VStr s)) "l5-etl-token") with (VStr "etl")
          by reflexivity.
        rewrite strict_eq_string_iff. naive_solver.
      * replace (get (validTokens (VStr s)) "faas-token") with (VStr "faas")
          by reflexivity.
        rewrite strict_eq_string_iff. naive_solver.
      * replace (get (validTokens (VStr s)) "function-token") with (VStr "function")
          by reflexivity.
        rewrite strict_eq_string_iff. naive_solver.
      * rewrite get_service_token, strict_eq_string. split; [|done].
        naive_solver.
    + split.
      * intros Hv. exfalso.
        destruct (get (validTokens (VStr s)) (property_key token)) eqn:Hg;
          cbn in Hv; try discriminate Hv.
        by apply get_not_string in Hg.
      * intros Hcases. exfalso. apply Hnot. apply recognized_cases.
        destruct token as [t|]; cbn [property_key]; naive_solver.
Qed.

(** *** Further properties: registering and removing a connection *)

Lemma removeConnection_gone k g :
  connections (removeConnection k g) !! k = None.
Proof.
  unfold removeConnection.
  destruct (connections g !! k) eqn:Hk; [|done].
  cbn. apply lookup_delete_eq.
Qed.

Lemma broadcastLog_absent clocks channel data g k :
  connections g !! k = None ->
  connections (snd (broadcastLog clocks channel data g)) !! k = None.
Proof.
  intros Hk. destruct (broadcastLog_spec clocks channel data g) as [Hg _].
  rewrite Hg, Hk. by case_decide.
Qed.

(** X2. Removing a connection is final.  A second [removeConnection] of
    the same id changes nothing, a heartbeat tick of the removed connection
    writes nothing, and no later fan-out brings the connection back. *)
Theorem removal_is_final k g :
  removeConnection k (removeConnection k g) = removeConnection k g
  /\ heartbeat k (removeConnection k g) = removeConnection k g
  /\ forall clocks channel data,
       connections
         (snd (broadcastLog clocks channel data (removeConnection k g))) !! k
       = None.
Proof.
  pose proof (removeConnection_gone k g) as Hgone.
  split; [|split].
  - unfold removeConnection at 1. by rewrite Hgone.
  - unfold heartbeat. by rewrite Hgone.
  - intros clocks channel data. by apply broadcastLog_absent.
Qed.

Lemma without_other k k' (o : option (gset string)) :
  k' <> k ->
  (exists s, o ≫= without k = Some s /\ k' ∈ s)
  <-> (exists s, o = Some s /\ k' ∈ s).
Proof.
  intros Hne. destruct o as [s0|]; cbn.
  - split.
    + intros (s & Hs & Hin). apply without_Some in Hs as [-> _].
      exists s0. split; [done|]. set_solver.
    + intros (s & [= <-] & Hin). exists (s0 ∖ {[k]}).
      split; [|set_solver]. apply without_Some. split; [done|]. set_solver.
  - split; intros (s & [=] & _).
Qed.

(** X3. Removing connection [k] touches no other connection: every other
    connection keeps its data and stays listed under exactly the channels it
    was listed under. *)
Theorem removal_spares_others k k' g :
  k' <> k ->
  connections (removeConnection k g) !! k' = connections g !! k'
  /\ forall c,
       (exists s, logChannels (removeConnection k g) !! c = Some s /\ k' ∈ s)
       <-> (exists s, logChannels g !! c = Some s /\ k' ∈ s).
Proof.
  intros Hne. unfold removeConnection.
  destruct (connections g !! k) as [conn|]; [|done].
  cbn [connections logChannels]. split; [by apply lookup_delete_ne|].
  intros c. rewrite foldl_unsubscribe_lookup.
  case_decide; [|done]. by apply without_other.
Qed.


(** X5. Connecting and disconnecting is a round trip on the registry: in a
    consistent gateway, serving a stream request under an unused id and
    then removing that connection restores both maps; only the counter of
    accepted connections remembers it. *)
Theorem connect_then_remove clock req g k g1 :
  registry_consistent g ->
  connections g !! k = None ->
  handleLogsSSE clock req g = Returned (k, g1) ->
  connections (removeConnection k g1) = connections g
  /\ logChannels (removeConnection k g1) = logChannels g
  /\ totalConnections (stats (removeConnection k g1))
     = totalConnections (stats g) + 1.
Proof.
  intros [Hexact Hne] Hfresh Hrun.
  unfold index_exact, no_empty_entry in *.
  destruct (requestedChannels (query_channels req)) as [requested|e] eqn:Hq.
  2: { by rewrite (handleLogsSSE_threw _ _ _ _ Hq) in Hrun. }
  rewrite (handleLogsSSE_returned _ _ _ _ Hq) in Hrun. cbv zeta in Hrun.
  injection Hrun as Hk <-. rewrite Hk in *.
  unfold removeConnection. cbn [connections]. rewrite lookup_insert_eq.
  cbn [connections logChannels stats totalConnections accepted_connection
       channels].
  split; [by apply delete_insert_id|]. split; [|done].
  apply map_eq. intros c.
  rewrite foldl_unsubscribe_lookup, foldl_subscribe_lookup.
  case_decide; [|done]. cbn.
  destruct (logChannels g !! c) as [s|] eqn:Hc; cbn.
  - apply without_Some. split; [|by eapply Hne].
    assert (k ∉ s); [|set_solver].
    intros Hin. destruct (proj1 (Hexact c k)) as (conn & Hconn & _);
      [by eauto|]. by rewrite Hfresh in Hconn.
  - unfold without. rewrite bool_decide_eq_true_2; [done|].
    apply size_empty_iff. set_solver.
Qed.

(** *** Further properties: what holds of every live connection *)

Lemma reachable_permitted g : reachable g -> all_permitted g.
Proof.
  intros Hg k conn c Hconn. revert c.
  revert g Hg k conn Hconn.
  apply (reachable_connections_ind
           (fun _ conn => forall c, c ∈ channels conn ->
              split ":" c !! 0%nat = Some "logs"
              /\ exists w, split ":" c !! 2%nat = Some w
                           /\ (w = "workspace123" \/ w = "workspace456"))).
  - intros clock req requested _ c. cbn [accepted_connection channels].
    rewrite elem_of_getUserLogChannels, channel_allowed_iff.
    intros (_ & Hlogs & w & Hw & Hin). split; [done|].
    exists w. split; [done|]. cbn in Hin.
    rewrite !elem_of_cons, elem_of_nil in Hin. tauto.
  - done.
  - done.
Qed.

Lemma reachable_identified g : reachable g -> identified g.
Proof.
  intros Hg k conn Hconn. revert g Hg k conn Hconn.
  apply (reachable_connections_ind
           (fun k conn => connectionId conn = k /\ userId conn <> "")).
  - intros clock req requested _. split; [done|].
    cbn. destruct (x_user_id req) as [s|]; [|done].
    by case_bool_decide.
  - done.
  - done.
Qed.

Lemma hello_not_data allowed userId connectionId now :
  is_data_record (hello_record allowed userId connectionId now) = false.
Proof. reflexivity. Qed.

Lemma log_record_is_data channel data clock :
  is_data_record (log_record channel data clock) = true.
Proof. reflexivity. Qed.

Lemma ping_not_data : is_data_record ping = false.
Proof. reflexivity. Qed.

Lemma reachable_accounted g : reachable g -> all_accounted g.
Proof.
  intros Hg k conn Hconn. revert g Hg k conn Hconn.
  apply (reachable_connections_ind (fun _ conn => accounted conn)).
  - intros clock req requested _. eexists _, []. split; [done|].
    split; [constructor|done].
  - intros k conn (now & rest & Hw & Hall & Hn).
    exists now, (rest ++ [ping])%list. cbn [write_to res write written
      channels userId connectionId logsSent]. rewrite Hw. split; [done|].
    split.
    + apply Forall_app. split; [done|]. constructor; [by right|constructor].
    + rewrite filter_app, length_app, Hn. rewrite filter_cons.
      rewrite decide_False by (by rewrite ping_not_data).
      cbn. lia.
  - intros k conn channel data clock (now & rest & Hw & Hall & Hn).
    exists now, (rest ++ [log_record channel data clock])%list.
    cbn [sent_to res write written channels userId connectionId logsSent].
    rewrite Hw. split; [done|]. split.
    + apply Forall_app. split; [done|].
      constructor; [left; apply log_record_is_data|constructor].
    + rewrite filter_app, length_app, Hn. rewrite filter_cons.
      rewrite decide_True by apply log_record_is_data.
      cbn. lia.
Qed.

(** X6. Every subscription is a permitted one.  In every reachable state,
    each channel in the [channels] of a live connection has [logs] as its
    first component and one of the two workspaces of the mock user as its
    third. *)
Theorem subscriptions_permitted g k conn c :
  reachable g ->
  connections g !! k = Some conn ->
  c ∈ channels conn ->
  split ":" c !! 0%nat = Some "logs"
  /\ exists w, split ":" c !! 2%nat = Some w
               /\ (w = "workspace123" \/ w = "workspace456").
Proof. intros Hg Hconn Hc. by eapply (reachable_permitted g Hg). Qed.

Lemma broadcastLog_no_entry clocks channel data g :
  logChannels g !! channel = None ->
  broadcastLog clocks channel data g = (0, g).
Proof.
  intros Hnone. unfold broadcastLog. rewrite Hnone. cbn [default].
  by rewrite elements_empty.
Qed.

Lemma subscribers_live g c s k :
  registry_consistent g ->
  logChannels g !! c = Some s -> k ∈ s ->
  exists conn, connections g !! k = Some conn /\ c ∈ channels conn.
Proof. intros [Hexact _] Hs Hk. apply (Hexact c k). eauto. Qed.

Lemma not_subscribed g c k conn :
  registry_consistent g ->
  connections g !! k = Some conn -> c ∉ channels conn ->
  k ∉ default ∅ (logChannels g !! c).
Proof.
  intros Hg Hconn Hc Hin.
  destruct (logChannels g !! c) as [s|] eqn:Hs; cbn in Hin; [|set_solver].
  destruct (subscribers_live g c s k Hg Hs Hin) as (conn' & Hconn' & Hc').
  rewrite Hconn in Hconn'. by injection Hconn' as <-.
Qed.

(** X7. A publish for a channel the subscribe filter refuses reaches
    nobody.  In every reachable state, when the channel fails
    [channel_allowed] (its first component is not [logs], or its third is
    not a workspace of the mock user), the reverse index has no entry for
    it, [broadcastLog] returns 0 and leaves the gateway as it is; an
    accepted publish whose channel name is built and is such a channel
    reports [delivered: 0]. *)
Theorem refused_channel_reaches_nobody clocks now sreq req g c :
  reachable g ->
  channel_allowed (mock_user sreq) c = false ->
  logChannels g !! c = None
  /\ broadcastLog clocks c (logData (body req)) g = (0, g)
  /\ (validateLogPublisher (x_service_token req) (service (body req)) = true ->
      publish_channel (body req) = Returned c ->
      handleLogsPublish clocks now req g
      = (Returned
           {| reply_status := 200;
              reply_body :=
                VObj [ ("success", VBool true);
                       ("channel", VStr c);
                       ("delivered", num 0);
                       ("timestamp", num now) ] |},
         count_publish g)).
Proof.
  intros Hg Hrefused.
  assert (Hnone : logChannels g !! c = None).
  { destruct (logChannels g !! c) as [s|] eqn:Hs; [exfalso|done].
    destruct (reachable_index_permitted g Hg c s Hs)
      as (Hlogs & w & Hw & Hws).
    assert (channel_allowed (mock_user sreq) c = true); [|congruence].
    apply channel_allowed_iff. split; [done|]. exists w. split; [done|].
    cbn. rewrite !elem_of_cons. tauto. }
  pose proof (broadcastLog_no_entry clocks _ (logData (body req)) g Hnone)
    as Hb.
  split; [exact Hnone|]. split; [exact Hb|]. intros Hv Hc.
  rewrite (publish_accepted _ _ _ _ c) by done.
  by rewrite Hb.
Qed.

(** X8. A record goes to the subscribers of its channel only.  In a
    gateway whose reverse index is exact, fan-out on channel [c] leaves a
    connection whose [channels] does not have [c] exactly as it was:
    nothing is written to it, it is not removed, and its counter is
    unchanged; so does a whole publish request whose channel is [c]. *)
Theorem fanout_spares_other_channels clocks now req c data g k conn :
  registry_consistent g ->
  connections g !! k = Some conn ->
  c ∉ channels conn ->
  connections (snd (broadcastLog clocks c data g)) !! k = Some conn
  /\ (publish_channel (body req) = Returned c ->
      connections (snd (handleLogsPublish clocks now req g)) !! k
      = Some conn).
Proof.
  intros Hg Hconn Hc.
  pose proof (not_subscribed g c k conn Hg Hconn Hc) as Hnot.
  assert (Hb : forall d,
             connections (snd (broadcastLog clocks c d g)) !! k = Some conn).
  { intros d. destruct (broadcastLog_spec clocks c d g) as [Hspec _].
    by rewrite Hspec, decide_False. }
  split; [apply Hb|]. intros Hch.
  destruct (publish_state clocks now req g) as [->|(c' & Hc' & ->)]; [done|].
  rewrite Hch in Hc'. injection Hc' as <-. apply Hb.
Qed.

Lemma filter_all {A} (P : A -> Prop) `{!forall x, Decision (P x)}
    (l : list A) :
  (forall x, x ∈ l -> P x) -> filter P l = l.
Proof.
  induction l as [|a l IH]; intros Hall; [done|].
  rewrite filter_cons, decide_True by (apply Hall, list_elem_of_here).
  rewrite IH; [done|]. intros x Hx. by apply Hall, list_elem_of_further.
Qed.

(** X9. The publisher's [delivered] is the size of the channel's subscriber
    set.  In a gateway whose reverse index is exact, when no write to a
    subscriber of the channel throws, [broadcastLog] returns the number of
    members of the channel's set in the reverse index (0 for a channel with
    no entry). *)
Theorem delivered_is_subscriber_count clocks c data g :
  registry_consistent g ->
  (forall k, k ∈ default ∅ (logChannels g !! c) ->
             write_throws (clocks k) = false) ->
  fst (broadcastLog clocks c data g)
  = Z.of_nat (size (default ∅ (logChannels g !! c))).
Proof.
  intros Hg Hwrites.
  destruct (broadcastLog_spec clocks c data g) as [_ Hn]. rewrite Hn.
  rewrite filter_all; [done|].
  intros k Hk%elem_of_elements. unfold receives.
  rewrite (Hwrites k Hk), andb_true_r. apply bool_decide_eq_true.
  destruct (logChannels g !! c) as [s|] eqn:Hs; cbn in Hk; [|set_solver].
  destruct (subscribers_live g c s k Hg Hs Hk) as (conn & Hconn & _).
  by eauto.
Qed.

(** X10. A subscriber whose write throws is unregistered by the fan-out
    itself.  In a gateway whose reverse index is exact, after
    [broadcastLog] on a channel, a subscriber of that channel whose
    [res.write] threw is in neither the connection map nor any set of the
    reverse index, and was not counted in [delivered]. *)
Theorem failed_write_unregisters clocks c data g k :
  registry_consistent g ->
  k ∈ default ∅ (logChannels g !! c) ->
  write_throws (clocks k) = true ->
  unregistered k (snd (broadcastLog clocks c data g))
  /\ receives clocks g k = false.
Proof.
  intros Hg Hk Hthrows.
  destruct (broadcastLog_spec clocks c data g) as [Hspec _].
  assert (Hgone : connections (snd (broadcastLog clocks c data g)) !! k
                  = None).
  { rewrite Hspec, decide_True by done.
    destruct (connections g !! k); [|done]. cbn.
    unfold delivered_to. by rewrite Hthrows. }
  split; [|unfold receives; rewrite Hthrows; apply andb_false_r].
  split; [exact Hgone|]. intros c' s Hs Hin.
  pose proof (broadcastLog_consistent clocks c data g Hg) as Hcons.
  destruct (subscribers_live _ c' s k Hcons Hs Hin) as (conn & Hconn & _).
  by rewrite Hgone in Hconn.
Qed.

Lemma filter_length_pos {A} (P : A -> Prop) `{!forall x, Decision (P x)}
    (l : list A) (x : A) :
  x ∈ l -> P x -> (1 <= length (filter P l))%nat.
Proof.
  intros Hx HP.
  assert (Hin : x ∈ filter P l) by (by apply list_elem_of_filter).
  destruct (filter P l); [by apply elem_of_nil in Hin|cbn; lia].
Qed.

(** X11. Subscribe, then publish, then observe.  After a stream request is
    served with channel [c] among its allowed channels, a fan-out on [c]
    whose write to the new connection does not throw counts at least this
    delivery, and the connection's stream is its confirmation followed by
    that one record, with [logsSent] 1. *)
Theorem subscribe_then_publish clock req requested g k g1 clocks c data :
  requestedChannels (query_channels req) = Returned requested ->
  handleLogsSSE clock req g = Returned (k, g1) ->
  c ∈ getUserLogChannels (mock_user req) requested ->
  write_throws (clocks k) = false ->
  1 <= fst (broadcastLog clocks c data g1)
  /\ exists conn,
       connections (snd (broadcastLog clocks c data g1)) !! k = Some conn
       /\ written (res conn)
          = [ hello_record (getUserLogChannels (mock_user req) requested)
                (id (mock_user req)) k (sse_now_hello clock);
              log_record c data (clocks k) ]
       /\ logsSent conn = 1.
Proof.
  intros Hq Hrun Hc Hw.
  rewrite (handleLogsSSE_returned _ _ _ _ Hq) in Hrun. cbv zeta in Hrun.
  injection Hrun as Hk <-. rewrite Hk in *.
  set (u := mock_user req) in *.
  set (allowed := getUserLogChannels u requested) in *.
  set (g1 := {| connections := _; logChannels := _; stats := _ |}).
  assert (Hconn : connections g1 !! k
                  = Some (accepted_connection clock u allowed)).
  { cbn. apply lookup_insert_eq. }
  assert (Hsub : k ∈ default ∅ (logChannels g1 !! c)).
  { cbn [g1 logChannels]. rewrite foldl_subscribe_lookup.
    rewrite decide_True by done. cbn. set_solver. }
  destruct (broadcastLog_spec clocks c data g1) as [Hspec Hn]. split.
  - rewrite Hn.
    assert (1 <= length (filter (fun k0 => receives clocks g1 k0 = true)
                           (elements (default ∅ (logChannels g1 !! c)))))%nat;
      [|lia].
    apply (filter_length_pos _ _ k); [by apply elem_of_elements|].
    unfold receives. rewrite Hconn, Hw.
    by rewrite bool_decide_eq_true_2 by eauto.
  - eexists. split.
    + rewrite Hspec, decide_True, Hconn by done. cbn.
      unfold delivered_to. by rewrite Hw.
    + cbn. rewrite <- Hk. done.
Qed.

(** X12. The counter [logsSent] is exact.  In every reachable state the
    stream of a live connection is its confirmation followed by data
    records and heartbeats only, and [logsSent] is the number of data
    records (chunks opening with an [id:] line) written to it. *)
Theorem logsSent_counts_data_records g k conn :
  reachable g ->
  connections g !! k = Some conn ->
  logsSent conn
  = Z.of_nat (length (filter (fun chunk => is_data_record chunk = true)
                        (written (res conn))))
  /\ exists now rest,
       written (res conn)
       = hello_record (channels conn) (userId conn) k now :: rest
       /\ Forall (fun chunk => is_data_record chunk = true \/ chunk = ping)
            rest.
Proof.
  intros Hg Hconn.
  destruct (reachable_accounted g Hg k conn Hconn)
    as (now & rest & Hw & Hall & Hn).
  destruct (reachable_identified g Hg k conn Hconn) as [Hid _].
  split.
  - rewrite Hw, filter_cons.
    by rewrite decide_False by (by rewrite hello_not_data).
  - exists now, rest. by rewrite <- Hid.
Qed.

(** *** Further properties: counters and the read-only endpoints *)

Lemma removeConnection_stats k g : stats (removeConnection k g) = stats g.
Proof. unfold removeConnection. by destruct (connections g !! k). Qed.

Lemma foldl_deliver_stats clocks channel data l acc :
  stats (snd (foldl (deliver clocks channel data) acc l)) = stats (snd acc).
Proof.
  revert acc. induction l as [|k l IH]; intros [n g]; [done|].
  cbn [foldl]. rewrite IH. unfold deliver.
  destruct (connections g !! k); [|done].
  destruct (write_throws (clocks k)); [|done].
  apply removeConnection_stats.
Qed.

Lemma broadcastLog_stats clocks channel data g :
  stats (snd (broadcastLog clocks channel data g)) = stats g.
Proof. unfold broadcastLog. by rewrite foldl_deliver_stats. Qed.

Lemma size_le_lookup {A B} (m' : gmap string A) (m : gmap string B) :
  (forall k, is_Some (m' !! k) -> is_Some (m !! k)) ->
  (size m' <= size m)%nat.
Proof.
  intros Hsub. rewrite <- !(size_dom (D := gset string)).
  apply subseteq_size. intros k. rewrite !elem_of_dom. apply Hsub.
Qed.

Lemma broadcastLog_lookup_Some clocks channel data g k :
  is_Some (connections (snd (broadcastLog clocks channel data g)) !! k) ->
  is_Some (connections g !! k).
Proof.
  destruct (broadcastLog_spec clocks channel data g) as [Hspec _].
  rewrite Hspec. case_decide; [|done].
  destruct (connections g !! k); [by eauto|]. by intros [? [=]].
Qed.

Lemma counters_accounting_aux clocks now req g :
  (size (connections (snd (handleLogsPublish clocks now req g)))
   <= size (connections g))%nat
  /\ stats (snd (handleLogsPublish clocks now req g))
     = {| totalConnections := totalConnections (stats g);
          logsPublished :=
            logsPublished (stats g)
            + match publish_channel (body req) with
              | Returned _ =>
                  if validateLogPublisher (x_service_token req)
                       (service (body req))
                  then 1 else 0
              | Threw _ => 0
              end;
          startTime := startTime (stats g) |}.
Proof.
  assert (Hsame : stats g
                  = {| totalConnections := totalConnections (stats g);
                       logsPublished := logsPublished (stats g) + 0;
                       startTime := startTime (stats g) |}).
  { destruct (stats g). cbn. f_equal. lia. }
  destruct (validateLogPublisher (x_service_token req) (service (body req)))
    eqn:Hv.
  - destruct (publish_channel (body req)) as [c|e] eqn:Hc.
    + rewrite (publish_accepted _ _ _ _ c) by done. cbn.
      rewrite broadcastLog_stats.
      split; [|done]. apply size_le_lookup, broadcastLog_lookup_Some.
    + rewrite (publish_threw _ _ _ _ e) by done. cbn. by split.
  - rewrite publish_rejected by done. cbn. split; [done|].
    by destruct (publish_channel (body req)).
Qed.

Lemma handleTestLogs_stats clocks now sample b g :
  (size (connections (snd (handleTestLogs clocks now sample b g)))
   <= size (connections g))%nat
  /\ stats (snd (handleTestLogs clocks now sample b g)) = stats g.
Proof.
  destruct (test_state clocks now sample b g) as [->|(c & data & ->)];
    [done|].
  rewrite broadcastLog_stats. split; [|done].
  apply size_le_lookup, broadcastLog_lookup_Some.
Qed.

(** X13. What each request does to the counters.  A publish adds one to
    [logsPublished] exactly when it is accepted and its channel name is
    built, whatever number of subscribers it reached; a rejected one, and
    one that ends with an exception, add nothing; a test publish is never
    counted; neither changes [totalConnections] or [startTime], nor does
    removing a connection. *)
Theorem counters_accounting clocks now sample req b k g :
  stats (snd (handleLogsPublish clocks now req g))
  = {| totalConnections := totalConnections (stats g);
       logsPublished :=
         logsPublished (stats g)
         + match publish_channel (body req) with
           | Returned _ =>
               if validateLogPublisher (x_service_token req)
                    (service (body req))
               then 1 else 0
           | Threw _ => 0
           end;
       startTime := startTime (stats g) |}
  /\ stats (snd (handleTestLogs clocks now sample b g)) = stats g
  /\ stats (removeConnection k g) = stats g.
Proof.
  split; [|split].
  - apply counters_accounting_aux.
  - apply handleTestLogs_stats.
  - apply removeConnection_stats.
Qed.

(** A publish that ends with an exception is not counted. *)
Lemma shadowing_publish_not_counted :
  handleLogsPublish Sample.clocks 0 Scenario.shadowing_publish
    Sample.one_subscriber
  = (Threw not_primitive, Sample.one_subscriber).
Proof. reflexivity. Qed.

Lemma reachable_connections_counted g :
  reachable g ->
  Z.of_nat (size (connections g)) <= totalConnections (stats g).
Proof.
  induction 1 as [now|g g' _ IH Hstep].
  { cbn. by rewrite map_size_empty. }
  destruct Hstep as [clock req g k0 g' Hrun|g g' Hquiet].
  - destruct (requestedChannels (query_channels req)) as [requested|e] eqn:Hq.
    2: { by rewrite (handleLogsSSE_threw _ _ _ _ Hq) in Hrun. }
    rewrite (handleLogsSSE_returned _ _ _ _ Hq) in Hrun. cbv zeta in Hrun.
    injection Hrun as <- <-. cbn [connections stats totalConnections].
    rewrite map_size_insert. case_match; unfold Datatypes.id; lia.
  - destruct Hquiet as [k0 g|k0 g|clocks now req g|clocks now sample b g].
    + rewrite removeConnection_stats.
      assert (size (connections (removeConnection k0 g))
              <= size (connections g))%nat; [|lia].
      apply size_le_lookup. intros k. unfold removeConnection.
      destruct (connections g !! k0); [|done]. cbn.
      rewrite lookup_delete. case_decide; [by intros [? [=]]|done].
    + assert ((size (connections (heartbeat k0 g)) <= size (connections g))%nat
              /\ stats (heartbeat k0 g) = stats g) as [Hsize ->]; [|lia].
      unfold heartbeat. destruct (connections g !! k0); [|done].
      split; [|done]. apply size_le_lookup. intros k. cbn.
      rewrite lookup_alter. case_decide; [subst k|done].
      destruct (connections g !! k0); [by eauto|]. by intros [? [=]].
    + destruct (counters_accounting_aux clocks now req g) as [Hsize ->].
      cbn. lia.
    + destruct (handleTestLogs_stats clocks now sample b g) as [Hsize ->].
      lia.
Qed.

(** X14. What [GET /health] can report.  In every reachable state the
    document has status 200 and a [connections] count between 0 and the
    counter [totalConnections]; when some open connection has a channel,
    both counts are at least 1; and when the reverse index is exact, the
    [channels] count is 0 whenever no connection is open. *)
Theorem health_counts now g :
  reachable g ->
  exists n m : Z,
    handleHealth now g
    = {| reply_status := 200;
         reply_body :=
           VObj [ ("status", VStr "healthy");
                  ("connections", num n);
                  ("channels", num m);
                  ("stats", stats_object (stats g));
                  ("uptime", num (now - startTime (stats g))) ] |}
    /\ 0 <= n <= totalConnections (stats g)
    /\ 0 <= m
    /\ (forall k conn,
           connections g !! k = Some conn -> channels conn <> [] ->
           1 <= n /\ 1 <= m)
    /\ (registry_consistent g -> n = 0 -> m = 0).
Proof.
  intros Hg. eexists _, _. split; [reflexivity|].
  split; [split; [lia|by apply reachable_connections_counted]|].
  split; [lia|]. split.
  - intros k conn Hconn Hchannels.
    assert (Hpos : forall {A} (m : gmap string A) i x,
               m !! i = Some x -> 1 <= Z.of_nat (size m)).
    { intros A m i x Hi.
      assert (size m <> 0)%nat; [|lia].
      intros Hsize%map_size_empty_iff. by rewrite Hsize, lookup_empty in Hi. }
    split; [by eapply Hpos|].
    destruct (channels conn) as [|c rest] eqn:Hcs; [done|].
    destruct (reachable_index_complete g Hg c k conn Hconn) as (s & Hs & _).
    { rewrite Hcs. apply list_elem_of_here. }
    by eapply Hpos.
  - intros Hcons Hzero.
    assert (Hnone : connections g = ∅).
    { apply map_size_empty_iff. lia. }
    assert (logChannels g = ∅) as ->; [|by rewrite map_size_empty].
    apply map_empty. intros c.
    destruct (logChannels g !! c) as [s|] eqn:Hs; [exfalso|done].
    destruct (set_choose_L s) as [k Hk]; [by eapply (proj2 Hcons)|].
    destruct (subscribers_live g c s k Hcons Hs Hk) as (conn & Hconn & _).
    by rewrite Hnone, lookup_empty in Hconn.
Qed.

(** After an id was drawn twice and removed, a channel is left in the
    index with no connection open. *)
Lemma stale_channel_counted :
  handleHealth 1700000001000
    (removeConnection Sample.subscriber Scenario.reused)
  = {| reply_status := 200;
       reply_body :=
         VObj [ ("status", VStr "healthy");
                ("connections", num 0);
                ("channels", num 1);
                ("stats", stats_object (stats Scenario.reused));
                ("uptime", num 1700000001000) ] |}.
Proof. vm_compute. reflexivity. Qed.

(** X15. What [GET /admin/logs/stats] shows of a subscriber.  In every
    state of a run that registers each stream request under an id not in
    use, each set of the reverse index has at least one member, and the
    object the endpoint builds for a member shows a live connection
    subscribed to that channel, with its own connection id, user id,
    connect time and [logsSent]: the fallbacks for a missing connection
    ('unknown', no connect time) do not show.  They do show after an id was
    drawn twice and removed. *)
Theorem admin_stats_entries :
  (forall g c s,
      reachable_fresh g ->
      logChannels g !! c = Some s ->
      (1 <= size s)%nat
      /\ forall k,
           k ∈ s ->
           exists conn,
             connections g !! k = Some conn
             /\ c ∈ channels conn
             /\ connection_stats g k
                = VObj [ ("connectionId", VStr (connectionId conn));
                         ("userId", VStr (userId conn));
                         ("connectedAt", num (connectedAt conn));
                         ("logsSent", num (logsSent conn)) ])
  /\ reachable (removeConnection Sample.subscriber Scenario.reused)
  /\ logChannels (removeConnection Sample.subscriber Scenario.reused)
     !! Sample.channel
     = Some {[Sample.subscriber]}
  /\ connection_stats (removeConnection Sample.subscriber Scenario.reused)
       Sample.subscriber
     = VObj [ ("connectionId", VStr Sample.subscriber);
              ("userId", VStr "unknown");
              ("connectedAt", VUndef);
              ("logsSent", num 0) ].
Proof.
  split; [|split; [|split; vm_compute; reflexivity]].
  - intros g c s Hfresh Hentry.
    pose proof (reachable_fresh_consistent g Hfresh) as Hcons.
    pose proof (fresh_reachable g Hfresh) as Hg.
    split.
    + assert (size s <> 0)%nat; [|lia].
      intros Hsize%size_empty_iff. apply (proj2 Hcons c s Hentry).
      by apply leibniz_equiv.
    + intros k Hk.
      destruct (subscribers_live g c s k Hcons Hentry Hk)
        as (conn & Hconn & Hc).
      destruct (reachable_identified g Hg k conn Hconn) as [Hid Huser].
      exists conn. split; [done|]. split; [done|].
      unfold connection_stats. rewrite Hconn, Hid.
      by rewrite bool_decide_eq_false_2.
  - eapply reachable_step; [apply reused_reachable|].
    apply step_quiet, step_close.
Qed.

Lemma or_default_defined (v : val) (d : string) :
  v <> VUndef -> or_default v d = v.
Proof. by destruct v. Qed.

Lemma truthy_defined (v : val) : truthy v = true -> v <> VUndef.
Proof. by intros Hv ->. Qed.

(** X16. The test endpoint is a publish without a token.  For a body with
    [service] and [workspace_id] given, a truthy [workflow_id] and
    [logData] and no truthy [function_id], [POST /test/logs] builds the
    channel name that [POST /api/logs/publish] builds.  When the name is
    built, it does the fan-out that an accepted publish of the same body
    does, on the same channel, with the same [delivered] and the same
    effect on every connection, although it reads no service token; it only
    leaves [logsPublished] alone.  When building the name throws, both
    handlers end with that exception and leave the gateway as it was. *)
Theorem test_publish_matches_publish clocks now sample req g :
  service (body req) <> VUndef ->
  workspace_id (body req) <> VUndef ->
  truthy (workflow_id (body req)) = true ->
  truthy (function_id (body req)) = false ->
  truthy (logData (body req)) = true ->
  validateLogPublisher (x_service_token req) (service (body req)) = true ->
  test_channel (body req) = publish_channel (body req)
  /\ (forall c,
        publish_channel (body req) = Returned c ->
        exists delivered g1,
          broadcastLog clocks c (logData (body req)) g = (delivered, g1)
          /\ handleLogsPublish clocks now req g
             = (Returned
                  {| reply_status := 200;
                     reply_body :=
                       VObj [ ("success", VBool true);
                              ("channel", VStr c);
                              ("delivered", num delivered);
                              ("timestamp", num now) ] |},
                count_publish g1)
          /\ handleTestLogs clocks now sample (body req) g
             = (Returned
                  {| reply_status := 200;
                     reply_body :=
                       VObj [ ("success", VBool true);
                              ("channel", VStr c);
                              ("delivered", num delivered);
                              ("logData", logData (body req));
                              ("timestamp", num now) ] |},
                g1))
  /\ (forall e,
        publish_channel (body req) = Threw e ->
        handleLogsPublish clocks now req g = (Threw e, g)
        /\ handleTestLogs clocks now sample (body req) g = (Threw e, g)).
Proof.
  intros Hs Hw Hwf Hf Hd Hv.
  assert (Hsame : test_channel (body req) = publish_channel (body req)).
  { unfold test_channel, publish_channel.
    rewrite !or_default_defined by (done || by apply truthy_defined).
    by rewrite Hf, Hwf. }
  split; [exact Hsame|]. split.
  - intros c Hc.
    destruct (broadcastLog clocks c (logData (body req)) g)
      as [delivered g1] eqn:Hb.
    exists delivered, g1. split; [done|]. split.
    + rewrite (publish_accepted _ _ _ _ c) by done. by rewrite Hb.
    + unfold handleTestLogs. rewrite Hsame, Hc, Hd. by rewrite Hb.
  - intros e He. split; [by apply publish_threw|].
    unfold handleTestLogs. by rewrite Hsame, He.
Qed.

(** *** Further properties: channel names from publish to subscribe *)

Lemma split_app_sep (sep : ascii) (a b : string) :
  lacks sep a = true ->
  split sep (a ++ String sep b) = a :: split sep b.
Proof.
  induction a as [|c a IH]; cbn [lacks]; intros Ha.
  - change (split sep (String sep b) = "" :: split sep b).
    cbn [split]. by rewrite Ascii.eqb_refl.
  - apply andb_true_iff in Ha as [Hc Ha]. apply negb_true_iff in Hc.
    change (split sep (String c (a ++ String sep b))
            = String c a :: split sep b).
    cbn [split]. by rewrite Hc, IH.
Qed.




(** *** Further properties: the framing of records *)

Lemma lacks_app (c : ascii) (a b : string) :
  lacks c (a ++ b) = lacks c a && lacks c b.
Proof.
  induction a as [|x a IH]; [done|].
  change (lacks c (String x (a ++ b)) = lacks c (String x a) && lacks c b).
  cbn [lacks]. rewrite IH. by rewrite andb_assoc.
Qed.

Lemma escape_char_lacks (c : ascii) :
  lacks "010" (escape_char c) = true.
Proof.
  destruct c as [b0 b1 b2 b3 b4 b5 b6 b7].
  destruct b0, b1, b2, b3, b4, b5, b6, b7; reflexivity.
Qed.

Lemma escape_lacks (s : string) : lacks "010" (escape s) = true.
Proof.
  induction s as [|c s IH]; [done|].
  cbn [escape]. by rewrite lacks_app, escape_char_lacks, IH.
Qed.

Lemma quote_lacks (s : string) : lacks "010" (quote s) = true.
Proof.
  unfold quote.
  change (String dquote (escape s) ++ String dquote "")
    with (String dquote (escape s ++ String dquote "")).
  cbn [lacks]. by rewrite lacks_app, escape_lacks.
Qed.

Lemma pretty_N_go_lacks (x : N) (s : string) :
  lacks "010" s = true -> lacks "010" (pretty_N_go x s) = true.
Proof.
  revert s. induction (N.lt_wf_0 x) as [x _ IH]; intros s Hs.
  destruct (decide (x = 0)%N) as [->|Hx]; [by rewrite pretty_N_go_0|].
  rewrite pretty_N_go_step by lia. apply IH.
  - apply N.div_lt; lia.
  - cbn [lacks]. rewrite Hs, andb_true_r.
    unfold pretty_N_char. by repeat case_match.
Qed.

Lemma pretty_Z_lacks (n : Z) : lacks "010" (pretty n) = true.
Proof.
  assert (HN : forall x : N, lacks "010" (pretty x) = true).
  { intros x. unfold pretty, pretty_N. case_decide; [done|].
    by apply pretty_N_go_lacks. }
  destruct n as [|p|p]; [done|apply (HN (Npos p))|].
  change (pretty (Z.neg p)) with ("-" ++ pretty (Npos p)).
  by rewrite lacks_app, HN.
Qed.

Lemma digits_text_lacks (ds : list digit) :
  lacks "010" (digits_text ds) = true.
Proof.
  induction ds as [|d ds IH]; [done|].
  cbn [digits_text lacks]. rewrite IH. by destruct d.
Qed.

Lemma zeros_lacks (n : nat) : lacks "010" (zeros n) = true.
Proof. induction n as [|n IH]; [done|]. cbn [zeros lacks]. by rewrite IH. Qed.

(** No rendering of a number has a line feed. *)
Lemma number_to_string_lacks (x : number) :
  lacks "010" (number_to_string x) = true.
Proof.
  destruct x as [|negative|negative ds n]; [done|by destruct negative|].
  unfold number_to_string. cbv zeta.
  rewrite lacks_app. apply andb_true_iff. split; [by destruct negative|].
  repeat case_match;
    rewrite ?lacks_app, ?digits_text_lacks, ?zeros_lacks, ?pretty_Z_lacks;
    reflexivity.
Qed.

Lemma join_lacks (sep : string) (l : list string) :
  lacks "010" sep = true ->
  Forall (fun s => lacks "010" s = true) l ->
  lacks "010" (JS.join sep l) = true.
Proof.
  intros Hsep. induction 1 as [|s l Hs Hl IH]; [done|].
  destruct l as [|s' l]; [done|].
  change (JS.join sep (s :: s' :: l)) with (s ++ sep ++ JS.join sep (s' :: l)).
  by rewrite !lacks_app, Hs, Hsep, IH.
Qed.

(** The text of [JSON.stringify] has no line feed. *)
Lemma stringify_lacks (v : val) (t : string) :
  stringify v = Some t -> lacks "010" t = true.
Proof.
  revert v t. fix IH 1.
  intros [| |b|n|s|l|fs|name] t; cbn [stringify]; intros Ht;
    try discriminate Ht; injection Ht as <-.
  - done.
  - by destruct b.
  - destruct n; [done|done|apply number_to_string_lacks].
  - apply quote_lacks.
  - rewrite !lacks_app, join_lacks; [done|done|].
    induction l as [|x l IHl]; [constructor|].
    cbn [map]. constructor; [|exact IHl].
    destruct (stringify x) as [tx|] eqn:Hx; [|done].
    by apply (IH x).
  - rewrite !lacks_app, join_lacks; [done|done|].
    induction fs as [|[k x] fs IHfs]; [constructor|].
    cbn [omap list_omap fst snd].
    destruct (stringify x) as [tx|] eqn:Hx; [|exact IHfs].
    constructor; [|exact IHfs].
    by rewrite !lacks_app, quote_lacks, (IH x tx Hx).
Qed.

Lemma stringify_text_lacks (v : val) :
  lacks "010" (stringify_text v) = true.
Proof.
  unfold stringify_text. destruct (stringify v) as [t|] eqn:Ht; [|done].
  by eapply stringify_lacks.
Qed.

Lemma split_nl : split "010" nl = [""; ""].
Proof. reflexivity. Qed.

(** X18. A payload cannot break the framing of a record.  Whatever the
    channel name and the [logData] hold (line feeds included,
    [JSON.stringify] escapes them), a data record is exactly an [id:] line,
    a [data:] line and the blank line that ends the event, provided the
    random suffix of the id has no line feed; and the confirmation is
    exactly a [data:] line and the blank line. *)
Theorem records_are_whole_lines channel data clock allowed userId
    connectionId now :
  lacks "010" (write_random clock) = true ->
  split "010" (log_record channel data clock)
  = [ "id: " ++ log_id clock;
      "data: " ++ stringify_text (logMessage channel data clock);
      ""; "" ]
  /\ split "010" (hello_record allowed userId connectionId now)
     = [ "data: "
         ++ stringify_text (hello_message allowed userId connectionId now);
         ""; "" ].
Proof.
  intros Hrandom. split.
  - unfold log_record.
    change ("id: " ++ log_id clock ++ nl ++ "data: "
            ++ stringify_text (logMessage channel data clock) ++ nl ++ nl)
      with (("id: " ++ log_id clock)
            ++ String "010"
                 (("data: "
                   ++ stringify_text (logMessage channel data clock))
                  ++ String "010" nl)).
    rewrite split_app_sep.
    2: { unfold log_id. change ("id: " ++ "log-" ++ ?x) with ("id: log-" ++ x).
         by rewrite !lacks_app, number_to_string_lacks, Hrandom. }
    rewrite split_app_sep; [by rewrite split_nl|].
    by rewrite lacks_app, stringify_text_lacks.
  - unfold hello_record.
    change ("data: "
            ++ stringify_text (hello_message allowed userId connectionId now)
            ++ nl ++ nl)
      with (("data: "
             ++ stringify_text
                  (hello_message allowed userId connectionId now))
            ++ String "010" nl).
    rewrite split_app_sep; [by rewrite split_nl|].
    by rewrite lacks_app, stringify_text_lacks.
Qed.

(** *** Further properties: successive publishes *)

Lemma subscribed_receives clocks c data g k conn :
  index_complete g ->
  connections g !! k = Some conn ->
  c ∈ channels conn ->
  write_throws (clocks k) = false ->
  connections (snd (broadcastLog clocks c data g)) !! k
  = Some (sent_to (log_record c data (clocks k)) conn).
Proof.
  intros Hcomplete Hconn Hc Hw.
  destruct (Hcomplete c k conn Hconn Hc) as (s & Hs & Hk).
  destruct (broadcastLog_spec clocks c data g) as [Hspec _].
  rewrite Hspec, Hs, decide_True, Hconn by done. cbn.
  unfold delivered_to. by rewrite Hw.
Qed.

(** X19. Records reach a subscriber in publish order.  In every reachable
    state, two fan-outs in a row, on channels that a live connection is
    subscribed to and with no throwing write to it, append their two
    records to its stream in that order, after everything written before,
    and add 2 to its [logsSent]. *)
Theorem publishes_arrive_in_order clocks1 clocks2 c1 c2 data1 data2 g k conn :
  reachable g ->
  connections g !! k = Some conn ->
  c1 ∈ channels conn ->
  c2 ∈ channels conn ->
  write_throws (clocks1 k) = false ->
  write_throws (clocks2 k) = false ->
  exists conn2,
    connections
      (snd (broadcastLog clocks2 c2 data2
              (snd (broadcastLog clocks1 c1 data1 g)))) !! k
    = Some conn2
    /\ written (res conn2)
       = (written (res conn)
          ++ [ log_record c1 data1 (clocks1 k);
               log_record c2 data2 (clocks2 k) ])%list
    /\ logsSent conn2 = logsSent conn + 2
    /\ channels conn2 = channels conn.
Proof.
  intros Hg Hconn Hc1 Hc2 Hw1 Hw2.
  pose proof (reachable_index_complete g Hg) as Hcons.
  pose proof (subscribed_receives clocks1 c1 data1 g k conn Hcons Hconn
                Hc1 Hw1) as H1.
  pose proof (broadcastLog_index_complete clocks1 c1 data1 g Hcons)
    as Hcons1.
  pose proof (subscribed_receives clocks2 c2 data2 _ k _ Hcons1 H1 Hc2 Hw2)
    as H2.
  eexists. split; [exact H2|]. cbn. split; [|split; [lia|done]].
  by rewrite <- app_assoc.
Qed.

(** *** Sample runs for the further properties *)

Lemma one_subscriber_reachable : reachable Sample.one_subscriber.
Proof. apply fresh_reachable, one_subscriber_fresh. Qed.

Lemma two_subscribers_fresh : reachable_fresh Scenario.two_subscribers.
Proof.
  apply (fresh_connect Scenario.clock2
           (Sample.subscribe_to Scenario.other_channel)
           Sample.one_subscriber Scenario.second);
    [apply one_subscriber_fresh|..]; vm_compute; reflexivity.
Qed.

Lemma two_subscribers_reachable : reachable Scenario.two_subscribers.
Proof. apply fresh_reachable, two_subscribers_fresh. Qed.

Lemma one_subscriber_consistent : registry_consistent Sample.one_subscriber.
Proof. apply reachable_fresh_consistent, one_subscriber_fresh. Qed.

Lemma two_subscribers_consistent :
  registry_consistent Scenario.two_subscribers.
Proof. apply reachable_fresh_consistent, two_subscribers_fresh. Qed.

Lemma two_subscribers_first :
  connections Scenario.two_subscribers !! Sample.subscriber
  = Some Sample.served.
Proof. vm_compute. reflexivity. Qed.

(** Removing the second connection spares the first. *)
Lemma removal_spares_others_witness :
  Sample.subscriber <> Scenario.second
  /\ connections (removeConnection Scenario.second Scenario.two_subscribers)
     !! Sample.subscriber
     = connections Scenario.two_subscribers !! Sample.subscriber.
Proof.
  assert (H : Sample.subscriber <> Scenario.second) by by_evaluation.
  split; [exact H|].
  exact (proj1 (removal_spares_others Scenario.second Sample.subscriber
                  Scenario.two_subscribers H)).
Defined.


(** Connecting to the fresh gateway and disconnecting empties it again. *)
Lemma connect_then_remove_witness :
  registry_consistent (constructor 0)
  /\ connections (constructor 0) !! Sample.subscriber = None
  /\ handleLogsSSE Sample.clock (Sample.subscribe_to Sample.channel)
       (constructor 0)
     = Returned (Sample.subscriber, Sample.one_subscriber)
  /\ logChannels (removeConnection Sample.subscriber Sample.one_subscriber)
     = logChannels (constructor 0).
Proof.
  assert (H1 : registry_consistent (constructor 0))
    by apply constructor_consistent.
  assert (H2 : connections (constructor 0) !! Sample.subscriber = None)
    by reflexivity.
  assert (H3 : handleLogsSSE Sample.clock (Sample.subscribe_to Sample.channel)
                 (constructor 0)
               = Returned (Sample.subscriber, Sample.one_subscriber))
    by (vm_compute; reflexivity).
  split; [exact H1|]. split; [exact H2|]. split; [exact H3|].
  exact (proj1 (proj2 (connect_then_remove _ _ _ _ _ H1 H2 H3))).
Defined.

(** The channel of the one subscriber is a permitted one. *)
Lemma subscriptions_permitted_witness :
  reachable Sample.one_subscriber
  /\ connections Sample.one_subscriber !! Sample.subscriber
     = Some Sample.served
  /\ Sample.channel ∈ channels Sample.served
  /\ split ":" Sample.channel !! 0%nat = Some "logs".
Proof.
  assert (H2 : connections Sample.one_subscriber !! Sample.subscriber
               = Some Sample.served) by (vm_compute; reflexivity).
  assert (H3 : Sample.channel ∈ channels Sample.served)
    by apply list_elem_of_here.
  split; [exact one_subscriber_reachable|]. split; [exact H2|].
  split; [exact H3|].
  exact (proj1 (subscriptions_permitted _ _ _ _ one_subscriber_reachable
                  H2 H3)).
Defined.

(** A publish for workspace999 reaches neither subscriber. *)
Lemma refused_channel_reaches_nobody_witness :
  reachable Scenario.two_subscribers
  /\ channel_allowed (mock_user (Sample.subscribe_to ""))
       "logs:etl:workspace999"
     = false
  /\ publish_channel (body Scenario.foreign_publish)
     = Returned "logs:etl:workspace999"
  /\ broadcastLog Sample.clocks "logs:etl:workspace999"
       (logData (body Scenario.foreign_publish)) Scenario.two_subscribers
     = (0, Scenario.two_subscribers).
Proof.
  assert (H : channel_allowed (mock_user (Sample.subscribe_to ""))
                "logs:etl:workspace999"
              = false) by reflexivity.
  split; [exact two_subscribers_reachable|]. split; [exact H|].
  split; [reflexivity|].
  exact (proj1 (proj2 (refused_channel_reaches_nobody Sample.clocks 0
                         (Sample.subscribe_to "") Scenario.foreign_publish
                         Scenario.two_subscribers "logs:etl:workspace999"
                         two_subscribers_reachable H))).
Defined.

(** A fan-out on the second subscriber's channel leaves the first alone. *)
Lemma fanout_spares_other_channels_witness :
  registry_consistent Scenario.two_subscribers
  /\ connections Scenario.two_subscribers !! Sample.subscriber
     = Some Sample.served
  /\ (Scenario.other_channel ∉ channels Sample.served)
  /\ connections
       (snd (broadcastLog Sample.clocks Scenario.other_channel Sample.info
               Scenario.two_subscribers))
     !! Sample.subscriber
     = Some Sample.served.
Proof.
  assert (H3 : Scenario.other_channel ∉ channels Sample.served)
    by by_evaluation.
  split; [exact two_subscribers_consistent|].
  split; [exact two_subscribers_first|]. split; [exact H3|].
  exact (proj1 (fanout_spares_other_channels Sample.clocks 0
                  Scenario.workflow_publish Scenario.other_channel
                  Sample.info Scenario.two_subscribers Sample.subscriber
                  Sample.served two_subscribers_consistent
                  two_subscribers_first H3)).
Defined.

(** One subscriber and no throwing write: [delivered] is 1. *)
Lemma delivered_is_subscriber_count_witness :
  registry_consistent Sample.one_subscriber
  /\ (forall k, k ∈ default ∅ (logChannels Sample.one_subscriber
                                 !! Sample.channel) ->
                write_throws (Sample.clocks k) = false)
  /\ fst (broadcastLog Sample.clocks Sample.channel Sample.info
            Sample.one_subscriber)
     = Z.of_nat (size (default ∅ (logChannels Sample.one_subscriber
                                    !! Sample.channel))).
Proof.
  assert (H : forall k, k ∈ default ∅ (logChannels Sample.one_subscriber
                                         !! Sample.channel) ->
                        write_throws (Sample.clocks k) = false)
    by (intros k _; reflexivity).
  split; [exact one_subscriber_consistent|]. split; [exact H|].
  exact (delivered_is_subscriber_count Sample.clocks Sample.channel
           Sample.info Sample.one_subscriber one_subscriber_consistent H).
Defined.

(** The one subscriber's write throws: it is unregistered. *)
Lemma failed_write_unregisters_witness :
  registry_consistent Sample.one_subscriber
  /\ Sample.subscriber ∈ default ∅ (logChannels Sample.one_subscriber
                                      !! Sample.channel)
  /\ write_throws (Scenario.failing_clocks Sample.subscriber) = true
  /\ unregistered Sample.subscriber
       (snd (broadcastLog Scenario.failing_clocks Sample.channel Sample.info
               Sample.one_subscriber)).
Proof.
  assert (H2 : Sample.subscriber
               ∈ default ∅ (logChannels Sample.one_subscriber
                              !! Sample.channel)) by by_evaluation.
  split; [exact one_subscriber_consistent|]. split; [exact H2|].
  split; [reflexivity|].
  exact (proj1 (failed_write_unregisters Scenario.failing_clocks
                  Sample.channel Sample.info Sample.one_subscriber
                  Sample.subscriber one_subscriber_consistent H2 eq_refl)).
Defined.

(** Subscribe to [Sample.channel] on the fresh gateway, then publish. *)
Lemma subscribe_then_publish_witness :
  requestedChannels (query_channels (Sample.subscribe_to Sample.channel))
  = Returned [Sample.channel]
  /\ handleLogsSSE Sample.clock (Sample.subscribe_to Sample.channel)
       (constructor 0)
     = Returned (Sample.subscriber, Sample.one_subscriber)
  /\ Sample.channel
     ∈ getUserLogChannels (mock_user (Sample.subscribe_to Sample.channel))
         [Sample.channel]
  /\ write_throws (Sample.clocks Sample.subscriber) = false
  /\ 1 <= fst (broadcastLog Sample.clocks Sample.channel Sample.info
                 Sample.one_subscriber).
Proof.
  assert (H2 : handleLogsSSE Sample.clock (Sample.subscribe_to Sample.channel)
                 (constructor 0)
               = Returned (Sample.subscriber, Sample.one_subscriber))
    by (vm_compute; reflexivity).
  assert (H3 : Sample.channel
               ∈ getUserLogChannels
                   (mock_user (Sample.subscribe_to Sample.channel))
                   [Sample.channel]) by by_evaluation.
  split; [reflexivity|]. split; [exact H2|]. split; [exact H3|].
  split; [reflexivity|].
  exact (proj1 (subscribe_then_publish Sample.clock
                  (Sample.subscribe_to Sample.channel) [Sample.channel]
                  (constructor 0) Sample.subscriber Sample.one_subscriber
                  Sample.clocks Sample.channel Sample.info
                  eq_refl H2 H3 eq_refl)).
Defined.

(** The one subscriber before any publish: no data record, [logsSent] 0. *)
Lemma logsSent_counts_data_records_witness :
  reachable Sample.one_subscriber
  /\ connections Sample.one_subscriber !! Sample.subscriber
     = Some Sample.served
  /\ logsSent Sample.served
     = Z.of_nat (length (filter (fun chunk => is_data_record chunk = true)
                           (written (res Sample.served)))).
Proof.
  assert (H2 : connections Sample.one_subscriber !! Sample.subscriber
               = Some Sample.served) by (vm_compute; reflexivity).
  split; [exact one_subscriber_reachable|]. split; [exact H2|].
  exact (proj1 (logsSent_counts_data_records Sample.one_subscriber
                  Sample.subscriber Sample.served one_subscriber_reachable
                  H2)).
Defined.

(** The health document of the state with two subscribers. *)
Lemma health_counts_witness :
  reachable Scenario.two_subscribers
  /\ exists n m : Z,
       handleHealth 1700000001000 Scenario.two_subscribers
       = {| reply_status := 200;
            reply_body :=
              VObj [ ("status", VStr "healthy");
                     ("connections", num n);
                     ("channels", num m);
                     ("stats", stats_object (stats Scenario.two_subscribers));
                     ("uptime",
                      num (1700000001000
                           - startTime (stats Scenario.two_subscribers))) ] |}
       /\ 0 <= n <= totalConnections (stats Scenario.two_subscribers)
       /\ 0 <= m.
Proof.
  split; [exact two_subscribers_reachable|].
  destruct (health_counts 1700000001000 Scenario.two_subscribers
              two_subscribers_reachable) as (n & m & H1 & H2 & H3 & _).
  exists n, m. split; [exact H1|]. split; [exact H2|exact H3].
Defined.

(** The set of [Sample.channel] with its one subscriber. *)
Lemma admin_stats_entries_witness :
  reachable_fresh Sample.one_subscriber
  /\ logChannels Sample.one_subscriber !! Sample.channel
     = Some {[Sample.subscriber]}
  /\ (1 <= size ({[Sample.subscriber]} : gset string))%nat.
Proof.
  assert (H2 : logChannels Sample.one_subscriber !! Sample.channel
               = Some {[Sample.subscriber]}) by (vm_compute; reflexivity).
  split; [exact one_subscriber_fresh|]. split; [exact H2|].
  exact (proj1 (proj1 admin_stats_entries Sample.one_subscriber
                  Sample.channel {[Sample.subscriber]} one_subscriber_fresh
                  H2)).
Defined.

(** The body with a workflow: test publish and publish do the same. *)
Lemma test_publish_matches_publish_witness :
  service (body Scenario.workflow_publish) <> VUndef
  /\ workspace_id (body Scenario.workflow_publish) <> VUndef
  /\ truthy (workflow_id (body Scenario.workflow_publish)) = true
  /\ truthy (function_id (body Scenario.workflow_publish)) = false
  /\ truthy (logData (body Scenario.workflow_publish)) = true
  /\ validateLogPublisher (x_service_token Scenario.workflow_publish)
       (service (body Scenario.workflow_publish))
     = true
  /\ publish_channel (body Scenario.workflow_publish)
     = Returned "logs:etl:workspace123:workflow456"
  /\ test_channel (body Scenario.workflow_publish)
     = publish_channel (body Scenario.workflow_publish)
  /\ exists delivered g1,
       broadcastLog Sample.clocks "logs:etl:workspace123:workflow456"
         (logData (body Scenario.workflow_publish)) Sample.one_subscriber
       = (delivered, g1)
       /\ snd (handleLogsPublish Sample.clocks 5 Scenario.workflow_publish
                 Sample.one_subscriber)
          = count_publish g1
       /\ snd (handleTestLogs Sample.clocks 5 Sample.info
                 (body Scenario.workflow_publish) Sample.one_subscriber)
          = g1.
Proof.
  assert (H1 : service (body Scenario.workflow_publish) <> VUndef)
    by discriminate.
  assert (H2 : workspace_id (body Scenario.workflow_publish) <> VUndef)
    by discriminate.
  split; [exact H1|]. split; [exact H2|].
  split; [reflexivity|]. split; [reflexivity|]. split; [reflexivity|].
  split; [reflexivity|]. split; [reflexivity|].
  destruct (test_publish_matches_publish Sample.clocks 5 Sample.info
              Scenario.workflow_publish Sample.one_subscriber
              H1 H2 eq_refl eq_refl eq_refl eq_refl) as (Hsame & Hbuilt & _).
  split; [exact Hsame|].
  destruct (Hbuilt "logs:etl:workspace123:workflow456" eq_refl)
    as (delivered & g1 & Hb & Hp & Ht).
  exists delivered, g1. split; [exact Hb|].
  split; [exact (f_equal snd Hp)|exact (f_equal snd Ht)].
Defined.


(** A payload with a line feed in it. *)
Lemma records_are_whole_lines_witness :
  lacks "010" (write_random (Sample.clocks Sample.subscriber)) = true
  /\ split "010"
       (log_record Sample.channel (VStr ("first" ++ nl ++ "second"))
          (Sample.clocks Sample.subscriber))
     = [ "id: " ++ log_id (Sample.clocks Sample.subscriber);
         "data: "
         ++ stringify_text
              (logMessage Sample.channel (VStr ("first" ++ nl ++ "second"))
                 (Sample.clocks Sample.subscriber));
         ""; "" ].
Proof.
  split; [reflexivity|].
  exact (proj1 (records_are_whole_lines Sample.channel
                  (VStr ("first" ++ nl ++ "second"))
                  (Sample.clocks Sample.subscriber) [] "" "" 0 eq_refl)).
Defined.

(** Two publishes to the one subscriber. *)
Lemma publishes_arrive_in_order_witness :
  reachable Sample.one_subscriber
  /\ connections Sample.one_subscriber !! Sample.subscriber
     = Some Sample.served
  /\ Sample.channel ∈ channels Sample.served
  /\ write_throws (Sample.clocks Sample.subscriber) = false
  /\ exists conn2,
       connections
         (snd (broadcastLog Sample.clocks Sample.channel (VStr "two")
                 (snd (broadcastLog Sample.clocks Sample.channel (VStr "one")
                         Sample.one_subscriber))))
       !! Sample.subscriber
       = Some conn2
       /\ written (res conn2)
          = (written (res Sample.served)
             ++ [ log_record Sample.channel (VStr "one")
                    (Sample.clocks Sample.subscriber);
                  log_record Sample.channel (VStr "two")
                    (Sample.clocks Sample.subscriber) ])%list
       /\ logsSent conn2 = logsSent Sample.served + 2
       /\ channels conn2 = channels Sample.served.
Proof.
  assert (H2 : connections Sample.one_subscriber !! Sample.subscriber
               = Some Sample.served) by (vm_compute; reflexivity).
  assert (H3 : Sample.channel ∈ channels Sample.served)
    by apply list_elem_of_here.
  split; [exact one_subscriber_reachable|]. split; [exact H2|].
  split; [exact H3|]. split; [reflexivity|].
  exact (publishes_arrive_in_order Sample.clocks Sample.clocks
           Sample.channel Sample.channel (VStr "one") (VStr "two")
           Sample.one_subscriber Sample.subscriber Sample.served
           one_subscriber_reachable H2 H3 H3 eq_refl eq_refl).
Defined.

End Gateway.
